(** * WebLLM model analysis: feasibility scoring, bucketing and summary

    A shallow embedding of [webllm_model_analysis.py]: the embedded model
    catalog, the deployment-feasibility scorer with its bucketing, and the
    aggregate summary ([generate_analysis_summary]).  Plotting calls are
    left out; they do not feed back into any computed value. *)

From Stdlib Require Import ZArith QArith List String Ascii Bool Lia.
Import ListNotations.

(** ** Python values *)

(** Floats.  Every float of the program is a finite literal of the catalog
    or one of the thresholds [4.0], [6.0], [60], [50], [40]; the program
    only compares them and tests them for truth, it never does arithmetic
    on them.  A finite float is modelled by the rational it denotes; NaN
    and the infinities are not represented, the data model has positive
    sizes and scores between 0 and 100.  The catalog literals have two
    decimals and are written as such: rounding a decimal to the nearest
    double is monotone and keeps these literals apart, so every comparison
    below agrees with the one on doubles. *)
Module PyFloat.

Definition t := Q.

(** [a < b] and [a > b] *)
Definition ltb (a b : t) : bool := negb (Qle_bool b a).
Definition gtb (a b : t) : bool := ltb b a.

(** [bool(a)]: a float is false exactly when it is zero *)
Definition truthy (a : t) : bool := negb (Qeq_bool a 0).

End PyFloat.

(** Exceptions, as class and message.  The only one the program can raise
    comes from the built-ins [max] and [min] on an empty sequence. *)
Inductive exception : Type :=
| ValueError (msg : string).

(** Outcome of a computation that may raise. *)
Inductive result (A : Type) : Type :=
| Return (a : A)
| Raise (e : exception).
Arguments Return {A} a.
Arguments Raise {A} e.

Definition bind {A B : Type} (m : result A) (k : A -> result B) : result B :=
  match m with
  | Return a => k a
  | Raise e => Raise e
  end.

Notation "x <- m ;; k" := (bind m (fun x => k))
  (at level 61, m at next level, right associativity).

(** [s.split(sep)[0]] for a non-empty [sep]: the part of [s] before the
    first occurrence of [sep], all of [s] when there is none.  On an empty
    [sep] Python raises [ValueError]; the program passes ['-Instruct'],
    ['-q4'] and ['-'] only, and statements about other separators take
    them non-empty. *)
Fixpoint split_first (sep s : string) : string :=
  if String.prefix sep s then EmptyString
  else match s with
       | EmptyString => EmptyString
       | String c s' => String c (split_first sep s')
       end.

(** [max(items, key=key)] and [min(items, key=key)]: the first item is the
    candidate; a later item replaces it only when its key is strictly
    greater (smaller).  An empty sequence raises [ValueError]; the message
    is the interpreter's and its wording differs between releases, nothing
    below depends on it beyond its not being a message of the program. *)
Section MaxMin.
Context {A : Type} (key : A -> PyFloat.t).

Fixpoint max_from (best : A) (items : list A) : A :=
  match items with
  | [] => best
  | x :: rest =>
      if PyFloat.gtb (key x) (key best) then max_from x rest
      else max_from best rest
  end.

Fixpoint min_from (best : A) (items : list A) : A :=
  match items with
  | [] => best
  | x :: rest =>
      if PyFloat.ltb (key x) (key best) then min_from x rest
      else min_from best rest
  end.

Definition py_max (items : list A) : result A :=
  match items with
  | [] => Raise (ValueError "max() arg is an empty sequence")
  | x :: rest => Return (max_from x rest)
  end.

Definition py_min (items : list A) : result A :=
  match items with
  | [] => Raise (ValueError "min() arg is an empty sequence")
  | x :: rest => Return (min_from x rest)
  end.
End MaxMin.

(** ** Data model *)

(** One value of the [webllm_models] dict. *)
Record ModelRecord : Type := mkModelRecord {
  vram_mb : PyFloat.t;
  parameters : string;
  low_resource_compatible : bool;
  context_window : Z;
  quantization : string;
  sentiment_f1_score : option PyFloat.t;
  instruction_following : option PyFloat.t;
  file_size_gb : PyFloat.t
}.

(** The dict itself: [.items()] and [.values()] walk it in insertion
    order, so it is kept as the list of its items.  A dict has no two items
    with one key; no statement below needs that. *)
Definition catalog : Type := list (string * ModelRecord).

Definition webllm_models : catalog :=
  [ ("Llama-3.2-1B-Instruct-q4f16_1"%string,
     mkModelRecord 879.04 "1.23B" true 4096 "q4f16_1" None (Some 59.5%Q) 0.88);
    ("Llama-3.2-1B-Instruct-q4f32_1"%string,
     mkModelRecord 1128.82 "1.23B" true 4096 "q4f32_1" None (Some 59.5%Q) 1.13);
    ("Llama-3.2-3B-Instruct-q4f16_1"%string,
     mkModelRecord 2263.69 "3.21B" true 4096 "q4f16_1" None (Some 59.5%Q) 2.26);
    ("SmolLM2-135M-Instruct-q0f32"%string,
     mkModelRecord 719.38 "135M" true 4096 "q0f32" None None 0.72);
    ("SmolLM2-360M-Instruct-q4f32_1"%string,
     mkModelRecord 579.61 "360M" true 4096 "q4f32_1" None None 0.58);
    ("SmolLM2-1.7B-Instruct-q4f32_1"%string,
     mkModelRecord 2692.38 "1.7B" true 4096 "q4f32_1" None None 2.69);
    ("Phi-3.5-mini-instruct-q4f16_1"%string,
     mkModelRecord 3672.07 "3.8B" false 4096 "q4f16_1" None (Some 61.4%Q) 3.67);
    ("Phi-3.5-mini-instruct-q4f16_1-1k"%string,
     mkModelRecord 2520.07 "3.8B" true 1024 "q4f16_1" None (Some 61.4%Q) 2.52);
    ("Qwen2.5-0.5B-Instruct-q4f32_1"%string,
     mkModelRecord 1060.20 "0.5B" true 4096 "q4f32_1" None None 1.06);
    ("Qwen2.5-1.5B-Instruct-q4f32_1"%string,
     mkModelRecord 1888.97 "1.5B" true 4096 "q4f32_1" (Some 58.29%Q) None 1.89);
    ("Qwen2.5-3B-Instruct-q4f32_1"%string,
     mkModelRecord 2893.64 "3B" true 4096 "q4f32_1" None None 2.89);
    ("gemma-2-2b-it-q4f32_1"%string,
     mkModelRecord 2508.75 "2.6B" false 4096 "q4f32_1" (Some 62.62%Q) None 2.51);
    ("gemma-2-2b-it-q4f32_1-1k"%string,
     mkModelRecord 1884.75 "2.6B" true 1024 "q4f32_1" (Some 62.62%Q) None 1.88);
    ("TinyLlama-1.1B-Chat-v1.0-q4f32_1"%string,
     mkModelRecord 839.98 "1.1B" true 2048 "q4f32_1" (Some 45.18%Q) None 0.84) ].

(** Truth value of an optional float: [None] is false, a float is false
    when it is zero. *)
Definition opt_truthy (o : option PyFloat.t) : bool :=
  match o with
  | None => false
  | Some x => PyFloat.truthy x
  end.

(** The condition [o and o > t]: the comparison is evaluated only when
    [o] is true. *)
Definition and_gt (o : option PyFloat.t) (t : PyFloat.t) : bool :=
  match o with
  | None => false
  | Some x => PyFloat.truthy x && PyFloat.gtb x t
  end.

(** ** Feasibility scorer ([create_deployment_feasibility_chart]) *)

(** The body of the loop up to the categorisation: the score of one
    record. *)
Definition feasibility_score (data : ModelRecord) : Z :=
  let score := 0%Z in
  let score :=
    if PyFloat.ltb (file_size_gb data) 4.0 then (score + 2)%Z
    else if PyFloat.ltb (file_size_gb data) 6.0 then (score + 1)%Z
    else score in
  let score :=
    if low_resource_compatible data then (score + 2)%Z else score in
  let score :=
    if and_gt (sentiment_f1_score data) 60 then (score + 3)%Z
    else if and_gt (sentiment_f1_score data) 50 then (score + 2)%Z
    else if and_gt (sentiment_f1_score data) 40 then (score + 1)%Z
    else score in
  let score :=
    if (4096 <=? context_window data)%Z then (score + 1)%Z else score in
  score.

(** The four keys of the [categories] dict. *)
Inductive category : Type :=
| Excellent
| Good
| Adequate
| NotSuitable.

Definition category_key (c : category) : string :=
  match c with
  | Excellent => "Excellent for Journaling"
  | Good => "Good for Journaling"
  | Adequate => "Adequate for Journaling"
  | NotSuitable => "Not Suitable"
  end.

(** The [if score >= 7 ... elif ... else] chain. *)
Definition categorize (score : Z) : category :=
  if (7 <=? score)%Z then Excellent
  else if (5 <=? score)%Z then Good
  else if (3 <=? score)%Z then Adequate
  else NotSuitable.

(** The [categories] dict: one list of base names per key. *)
Definition categories : Type := category -> list string.

Definition categories_init : categories := fun _ => [].

Definition category_eqb (c d : category) : bool :=
  match c, d with
  | Excellent, Excellent | Good, Good
  | Adequate, Adequate | NotSuitable, NotSuitable => true
  | _, _ => false
  end.

(** [categories[c].append(name)] *)
Definition categories_append (cats : categories) (c : category)
    (name : string) : categories :=
  fun d => if category_eqb c d then cats d ++ [name] else cats d.

(** The loop over [webllm_models.items()]. *)
Definition deployment_categories (models : catalog) : categories :=
  fold_left
    (fun cats item =>
       let '(model_name, data) := item in
       let score := feasibility_score data in
       let base_name := split_first "-Instruct" model_name in
       categories_append cats (categorize score) base_name)
    models categories_init.

(** ** Aggregate summary ([generate_analysis_summary]) *)

(** The [findings] dict. *)
Module Findings.
Record t : Type := mk {
  total_models_analyzed : nat;
  models_with_sentiment_data : nat;
  models_under_4gb : nat;
  low_resource_compatible : nat;
  best_sentiment_model : string * PyFloat.t;
  smallest_model : string * PyFloat.t
}.
End Findings.

(** [[m for m in webllm_models.values() if m['sentiment_f1_score']]] *)
Definition with_sentiment_data (models : catalog) : list ModelRecord :=
  filter (fun m => opt_truthy (sentiment_f1_score m)) (map snd models).

(** [[m for m in webllm_models.values() if m['file_size_gb'] < 4.0]] *)
Definition under_4gb (models : catalog) : list ModelRecord :=
  filter (fun m => PyFloat.ltb (file_size_gb m) 4.0) (map snd models).

(** [[m for m in webllm_models.values() if m['low_resource_compatible']]] *)
Definition low_resource (models : catalog) : list ModelRecord :=
  filter (fun m => low_resource_compatible m) (map snd models).

(** [[(name, data['sentiment_f1_score']) for name, data in
     webllm_models.items() if data['sentiment_f1_score']]] *)
Fixpoint sentiment_pairs (models : catalog) : list (string * PyFloat.t) :=
  match models with
  | [] => []
  | (name, data) :: rest =>
      match sentiment_f1_score data with
      | Some x =>
          if PyFloat.truthy x then (name, x) :: sentiment_pairs rest
          else sentiment_pairs rest
      | None => sentiment_pairs rest
      end
  end.

(** [[(name, data['file_size_gb']) for name, data in
     webllm_models.items()]] *)
Definition size_pairs (models : catalog) : list (string * PyFloat.t) :=
  map (fun item => (fst item, file_size_gb (snd item))) models.

(** The entries of the dict display are evaluated top to bottom, so [max]
    raises before [min] is reached.  The function also returns a text
    rendering of these same values, which is not modelled. *)
Definition generate_analysis_summary (models : catalog)
    : result Findings.t :=
  let total := List.length models in
  let with_data := List.length (with_sentiment_data models) in
  let under := List.length (under_4gb models) in
  let low := List.length (low_resource models) in
  best <- py_max snd (sentiment_pairs models) ;;
  smallest <- py_min snd (size_pairs models) ;;
  Return (Findings.mk total with_data under low best smallest).

(** ** Comparison table ([create_model_comparison_matrix]) *)

(** A cell holding either a float or the string ['N/A']. *)
Inductive cell : Type :=
| CFloat (x : PyFloat.t)
| CStr (s : string).

(** [v if v else 'N/A'] *)
Definition or_na (o : option PyFloat.t) : cell :=
  match o with
  | Some x => if PyFloat.truthy x then CFloat x else CStr "N/A"
  | None => CStr "N/A"
  end.

(** ** Record updates and sample records used in the statements *)

Definition set_file_size_gb (r : ModelRecord) (x : PyFloat.t) : ModelRecord :=
  mkModelRecord (vram_mb r) (parameters r) (low_resource_compatible r)
    (context_window r) (quantization r) (sentiment_f1_score r)
    (instruction_following r) x.

Definition set_low_resource_compatible (r : ModelRecord) (b : bool)
    : ModelRecord :=
  mkModelRecord (vram_mb r) (parameters r) b
    (context_window r) (quantization r) (sentiment_f1_score r)
    (instruction_following r) (file_size_gb r).

Definition set_sentiment_f1_score (r : ModelRecord) (o : option PyFloat.t)
    : ModelRecord :=
  mkModelRecord (vram_mb r) (parameters r) (low_resource_compatible r)
    (context_window r) (quantization r) o
    (instruction_following r) (file_size_gb r).

(** The catalog's ['TinyLlama-1.1B-Chat-v1.0-q4f32_1'] and
    ['SmolLM2-135M-Instruct-q0f32'] records. *)
Definition tinyllama : ModelRecord :=
  mkModelRecord 839.98 "1.1B" true 2048 "q4f32_1" (Some 45.18%Q) None 0.84.

Definition smollm2_135m : ModelRecord :=
  mkModelRecord 719.38 "135M" true 4096 "q0f32" None None 0.72.

Definition qwen_1_5b : ModelRecord :=
  mkModelRecord 1888.97 "1.5B" true 4096 "q4f32_1" (Some 58.29%Q) None 1.89.

(** The two gemma records of the catalog. *)
Definition gemma_2_2b : ModelRecord :=
  mkModelRecord 2508.75 "2.6B" false 4096 "q4f32_1" (Some 62.62%Q) None 2.51.

Definition gemma_2_2b_1k : ModelRecord :=
  mkModelRecord 1884.75 "2.6B" true 1024 "q4f32_1" (Some 62.62%Q) None 1.88.

(** TinyLlama with a benchmark result of zero. *)
Definition tinyllama_zero : ModelRecord :=
  set_sentiment_f1_score tinyllama (Some 0.0%Q).

(** ** The scoring rule as the specification words it *)

Definition spec_size_points (r : ModelRecord) : Z :=
  if PyFloat.ltb (file_size_gb r) 4.0 then 2
  else if PyFloat.ltb (file_size_gb r) 6.0 then 1
  else 0.

Definition spec_low_resource_points (r : ModelRecord) : Z :=
  if low_resource_compatible r then 2 else 0.

Definition spec_sentiment_points (r : ModelRecord) : Z :=
  match sentiment_f1_score r with
  | Some f1 =>
      if PyFloat.gtb f1 60 then 3
      else if PyFloat.gtb f1 50 then 2
      else if PyFloat.gtb f1 40 then 1
      else 0
  | None => 0
  end.

Definition spec_context_points (r : ModelRecord) : Z :=
  if (4096 <=? context_window r)%Z then 1 else 0.

Definition spec_additive_rule (r : ModelRecord) : Z :=
  (spec_size_points r + spec_low_resource_points r
   + spec_sentiment_points r + spec_context_points r)%Z.

(** One improving step on a record: a smaller file, low-resource
    compatibility switched on, or a higher sentiment score where one is
    present; every other field is kept. *)
Inductive improves : ModelRecord -> ModelRecord -> Prop :=
| improves_file_size (r : ModelRecord) (x : PyFloat.t) :
    (x <= file_size_gb r)%Q -> improves r (set_file_size_gb r x)
| improves_low_resource (r : ModelRecord) :
    low_resource_compatible r = false ->
    improves r (set_low_resource_compatible r true)
| improves_sentiment (r : ModelRecord) (x y : PyFloat.t) :
    sentiment_f1_score r = Some x -> (x <= y)%Q ->
    improves r (set_sentiment_f1_score r (Some y)).

(** ** The summary as the specification words it *)

(** An optional field is present when it holds a number, whatever the
    number. *)
Definition spec_present (o : option PyFloat.t) : bool :=
  match o with
  | Some _ => true
  | None => false
  end.

(** A linear scan over the catalog that looks at the present sentiment
    scores only and keeps the maximum seen so far. *)
Fixpoint spec_scan_best_sentiment (acc : option (string * PyFloat.t))
    (models : catalog) : option (string * PyFloat.t) :=
  match models with
  | [] => acc
  | (name, data) :: rest =>
      match sentiment_f1_score data with
      | None => spec_scan_best_sentiment acc rest
      | Some x =>
          match acc with
          | None => spec_scan_best_sentiment (Some (name, x)) rest
          | Some (_, best) =>
              if PyFloat.gtb x best
              then spec_scan_best_sentiment (Some (name, x)) rest
              else spec_scan_best_sentiment acc rest
          end
      end
  end.

Definition spec_count_present_sentiment (models : catalog) : nat :=
  List.length (filter (fun m => spec_present (sentiment_f1_score m)) (map snd models)).

Definition spec_count_under_4gb (models : catalog) : nat :=
  List.length (filter (fun m => PyFloat.ltb (file_size_gb m) 4.0) (map snd models)).

Definition spec_count_low_resource (models : catalog) : nat :=
  List.length (filter (fun m => low_resource_compatible m) (map snd models)).

(** [entry] names a record of minimum file size. *)
Definition spec_is_smallest (models : catalog) (entry : string * PyFloat.t) : Prop :=
  (exists data, In (fst entry, data) models /\ file_size_gb data = snd entry) /\
  forall name data, In (name, data) models -> (snd entry <= file_size_gb data)%Q.

Definition spec_summary (models : catalog) (f : Findings.t) : Prop :=
  spec_scan_best_sentiment None models = Some (Findings.best_sentiment_model f) /\
  Findings.models_with_sentiment_data f = spec_count_present_sentiment models /\
  Findings.models_under_4gb f = spec_count_under_4gb models /\
  Findings.low_resource_compatible f = spec_count_low_resource models /\
  spec_is_smallest models (Findings.smallest_model f).

Definition message (e : exception) : string :=
  match e with ValueError msg => msg end.

(** The outcome the specification asks for when no record carries a
    sentiment score: an error that says so. *)
Definition spec_reports_data_error {A : Type} (r : result A) : Prop :=
  exists e, r = Raise e /\
            message e = "no model has the required benchmark field"%string.

(** A catalog without any sentiment score: the SmolLM2-135M entry alone. *)
Definition catalog_without_scores : catalog :=
  [ ("SmolLM2-135M-Instruct-q0f32"%string, smollm2_135m) ].

(** Catalogs in which TinyLlama's benchmark result is zero. *)
Definition catalog_zero_only : catalog :=
  [ ("TinyLlama-1.1B-Chat-v1.0-q4f32_1"%string, tinyllama_zero) ].

Definition catalog_zero_and_qwen : catalog :=
  [ ("TinyLlama-1.1B-Chat-v1.0-q4f32_1"%string, tinyllama_zero);
    ("Qwen2.5-1.5B-Instruct-q4f32_1"%string, qwen_1_5b) ].

(** Qwen2.5-1.5B with a benchmark result of zero, and a catalog in which
    it shares that score with TinyLlama. *)
Definition qwen_zero : ModelRecord :=
  set_sentiment_f1_score qwen_1_5b (Some 0.0%Q).

Definition catalog_zero_tie : catalog :=
  [ ("TinyLlama-1.1B-Chat-v1.0-q4f32_1"%string, tinyllama_zero);
    ("Qwen2.5-1.5B-Instruct-q4f32_1"%string, qwen_zero) ].

(** ** Deployment chart: the bars ([create_deployment_feasibility_chart]) *)

Module FeasibilityChart.

(** [categories.items()] walks the keys in the order of the dict
    display. *)
Definition category_order : list category :=
  [Excellent; Good; Adequate; NotSuitable].

Definition colors : list string :=
  ["darkgreen"%string; "green"%string; "orange"%string; "red"%string].

(** One [ax.barh(y_pos, len(models), color=colors[i], label=category)]
    call together with the [ax.text(j + 0.5, y_pos, model)] calls that
    follow it. *)
Record bar : Type := mk_bar {
  y : nat;
  width : nat;
  color : string;
  label : string;
  texts : list (PyFloat.t * nat * string)
}.

(** [for j, model in enumerate(models): ax.text(j + 0.5, y_pos, model)];
    [j + 0.5] is exact on doubles for every index a list can have. *)
Fixpoint texts_from (j y_pos : nat) (models : list string)
    : list (PyFloat.t * nat * string) :=
  match models with
  | [] => []
  | model :: rest =>
      ((inject_Z (Z.of_nat j) + 0.5)%Q, y_pos, model)
      :: texts_from (S j) y_pos rest
  end.

(** [for i, (category, models) in enumerate(categories.items())]: an
    empty list draws nothing and leaves [y_pos] alone.  [i] stays below
    the four entries of [colors]. *)
Fixpoint bars_from (i y_pos : nat) (items : list category)
    (cats : categories) : list bar :=
  match items with
  | [] => []
  | c :: rest =>
      match cats c with
      | [] => bars_from (S i) y_pos rest cats
      | _ :: _ =>
          mk_bar y_pos (List.length (cats c)) (nth i colors EmptyString)
            (category_key c) (texts_from 0 y_pos (cats c))
          :: bars_from (S i) (S y_pos) rest cats
      end
  end.

Definition bars (cats : categories) : list bar :=
  bars_from 0 0 category_order cats.

(** [ax.set_yticks(range(len(categories)))] and
    [ax.set_yticklabels(categories.keys())] *)
Definition yticks : list nat := seq 0 (List.length category_order).

Definition yticklabels : list string := map category_key category_order.

(** The label the axis shows at height [y_pos]. *)
Definition tick_label (y_pos : nat) : option string :=
  nth_error yticklabels y_pos.

(** The chart drawn for a catalog. *)
Definition chart (models : catalog) : list bar :=
  bars (deployment_categories models).

End FeasibilityChart.

(** ** Comparison table: the rows ([create_model_comparison_matrix]) *)

Module ComparisonMatrix.

(** One dict of [comparison_data], a row of the data frame. *)
Record row : Type := mk_row {
  Model : string;
  Parameters : string;
  VRAM_MB : PyFloat.t;
  File_Size_GB : PyFloat.t;
  Context_Length : Z;
  Quantization : string;
  Low_Resource : string;
  Sentiment_F1 : cell;
  Instruction_Following : cell;
  Under_4GB : string
}.

(** ['Yes' if b else 'No'] *)
Definition yes_no (b : bool) : string :=
  if b then "Yes"%string else "No"%string.

(** [model_name.split('-Instruct')[0].split('-q4')[0]] *)
Definition base_name (model_name : string) : string :=
  split_first "-q4" (split_first "-Instruct" model_name).

Definition comparison_row (model_name : string) (data : ModelRecord) : row :=
  mk_row (base_name model_name)
    (parameters data)
    (vram_mb data)
    (file_size_gb data)
    (context_window data)
    (quantization data)
    (yes_no (low_resource_compatible data))
    (or_na (sentiment_f1_score data))
    (or_na (instruction_following data))
    (yes_no (PyFloat.ltb (file_size_gb data) 4.0)).

(** The loop over [webllm_models.items()]. *)
Definition comparison_data (models : catalog) : list row :=
  map (fun item => comparison_row (fst item) (snd item)) models.

(** [row['Sentiment F1'] != 'N/A']: a float differs from any string. *)
Definition not_na (c : cell) : bool :=
  match c with
  | CFloat _ => true
  | CStr s => negb (String.eqb s "N/A")
  end.

(** Rows whose column [col] reads ['Yes']. *)
Definition count_yes (col : row -> string) (rows : list row) : nat :=
  List.length (filter (fun r => String.eqb (col r) "Yes") rows).

End ComparisonMatrix.

(** ** Scatter chart: the plotted lists
       ([create_memory_vs_performance_chart]) *)

(** [s.replace(c, '')] for a one-character [c] *)
Fixpoint remove_char (c : Ascii.ascii) (s : string) : string :=
  match s with
  | EmptyString => EmptyString
  | String a rest =>
      if Ascii.eqb a c then remove_char c rest
      else String a (remove_char c rest)
  end.

(** [c in s] for a one-character [c] *)
Fixpoint contains_char (c : Ascii.ascii) (s : string) : bool :=
  match s with
  | EmptyString => false
  | String a rest => Ascii.eqb a c || contains_char c rest
  end.

Module MemoryChart.

(** The five lists handed to [plt.scatter] and [plt.annotate]. *)
Record data : Type := mk_data {
  models : list string;
  memory_mb : list PyFloat.t;
  sentiment_scores : list PyFloat.t;
  sizes : list PyFloat.t;
  colors : list string
}.

Definition empty : data := mk_data [] [] [] [] [].

Section WithFloat.

(** The built-in [float] on a string, which raises [ValueError] on text
    that is no number, and float division and multiplication.  They only
    produce the bubble sizes. *)
Variable float_of_string : string -> result PyFloat.t.
Variable float_div : PyFloat.t -> PyFloat.t -> PyFloat.t.
Variable float_mul : PyFloat.t -> PyFloat.t -> PyFloat.t.

(** [float(parameters.replace('B', '').replace('M', ''))], divided by
    1000 when ['M' in parameters], times 100 *)
Definition bubble_size (parameters : string) : result PyFloat.t :=
  param_val <-
    float_of_string (remove_char "M"%char (remove_char "B"%char parameters)) ;;
  let param_val :=
    if contains_char "M"%char parameters then float_div param_val 1000
    else param_val in
  Return (float_mul param_val 100).

(** The body of the loop for one item, appending to the five lists; a
    record whose score is [None] is passed over. *)
Definition add_point (acc : data) (model_name : string) (d : ModelRecord)
    : result data :=
  match sentiment_f1_score d with
  | None => Return acc
  | Some score =>
      let label :=
        (split_first "-" model_name
         ++ String (Ascii.ascii_of_nat 10) EmptyString
         ++ parameters d)%string in
      size <- bubble_size (parameters d) ;;
      Return
        (mk_data (models acc ++ [label])
           (memory_mb acc ++ [vram_mb d])
           (sentiment_scores acc ++ [score])
           (sizes acc ++ [size])
           (colors acc
            ++ [if low_resource_compatible d then "green"%string
                else "red"%string]))
  end.

Fixpoint points_from (acc : data) (items : catalog) : result data :=
  match items with
  | [] => Return acc
  | (model_name, d) :: rest =>
      acc' <- add_point acc model_name d ;;
      points_from acc' rest
  end.

(** The loop over [webllm_models.items()]. *)
Definition points (items : catalog) : result data :=
  points_from empty items.

End WithFloat.

End MemoryChart.

(** ** The pipeline and the files it writes ([main]) *)

(** What [main] touches of the file system: which paths are directories
    and which are regular files.  Permissions, links and disk space are
    not represented. *)
Module FS.

Record t : Type := mk {
  dirs : list string;
  files : list string
}.

Definition is_dir (fs : t) (path : string) : bool :=
  existsb (String.eqb path) (dirs fs).

Definition is_file (fs : t) (path : string) : bool :=
  existsb (String.eqb path) (files fs).

(** Creating the file [path], or overwriting it when it is there. *)
Definition with_file (fs : t) (path : string) : t :=
  if is_file fs path then fs else mk (dirs fs) (path :: files fs).

(** Creating the directory [path] unless it is there. *)
Definition with_dir (fs : t) (path : string) : t :=
  if is_dir fs path then fs else mk (path :: dirs fs) (files fs).

End FS.

(** How a run of [main] can end early: with the exception of the summary,
    or with an [OSError] (or one of its subclasses) for a path. *)
Inductive main_error : Type :=
| SummaryError (e : exception)
| OSError (path : string).

(** A step of the run: the file system it leaves, and the exception that
    ended it, if any. *)
Definition action : Type := FS.t -> FS.t * option main_error.

Definition and_then (a b : action) : action :=
  fun fs =>
    match a fs with
    | (fs', None) => b fs'
    | (fs', Some e) => (fs', Some e)
    end.

Notation "a >> b" := (and_then a b) (at level 62, left associativity).

(** [Path(path).mkdir(exist_ok=True)], [parent] being the directory of
    [path]: an existing directory is left alone; anything else in the way,
    or a missing parent, raises. *)
Definition mkdir_exist_ok (parent path : string) : action :=
  fun fs =>
    if FS.is_dir fs path then (fs, None)
    else if FS.is_file fs path then (fs, Some (OSError path))
    else if FS.is_dir fs parent then (FS.with_dir fs path, None)
    else (fs, Some (OSError path)).

(** Opening [path] for writing, as [plt.savefig], [DataFrame.to_csv] and
    [open(path, 'w')] do: the file is created or overwritten when its
    directory [parent] exists; no directory is ever created. *)
Definition write_file (parent path : string) : action :=
  fun fs =>
    if FS.is_dir fs path then (fs, Some (OSError path))
    else if FS.is_dir fs parent then (FS.with_file fs path, None)
    else (fs, Some (OSError path)).

(** [summary, findings = generate_analysis_summary()] *)
Definition summarize : action :=
  fun fs =>
    match generate_analysis_summary webllm_models with
    | Return _ => (fs, None)
    | Raise e => (fs, Some (SummaryError e))
    end.

Definition charts_dir : string := "/workspace/charts".
Definition data_dir : string := "/workspace/data".

Definition memory_chart_png : string :=
  "/workspace/charts/memory_vs_sentiment_performance.png".
Definition comparison_matrix_png : string :=
  "/workspace/charts/model_comparison_matrix.png".
Definition deployment_png : string :=
  "/workspace/charts/deployment_feasibility.png".
Definition comparison_csv : string :=
  "/workspace/data/model_comparison_matrix.csv".
Definition summary_txt : string := "/workspace/data/analysis_summary.txt".
Definition findings_json : string := "/workspace/data/analysis_findings.json".

(** The body of [main] in the order of its statements.  The three chart
    functions end in [plt.savefig]; what they draw is not part of the
    state, and drawing the embedded catalog is taken not to raise.  The
    returned text and table are not represented. *)
Definition main : action :=
  mkdir_exist_ok "/workspace" charts_dir
  >> write_file charts_dir memory_chart_png
  >> write_file charts_dir comparison_matrix_png
  >> write_file charts_dir deployment_png
  >> summarize
  >> write_file data_dir comparison_csv
  >> write_file data_dir summary_txt
  >> write_file data_dir findings_json.

(** ** Vocabulary of the further properties *)

(** No empty category comes before a non-empty one. *)
Definition filled_from_top (cats : categories) : Prop :=
  (cats Good <> [] -> cats Excellent <> []) /\
  (cats Adequate <> [] -> cats Good <> []) /\
  (cats NotSuitable <> [] -> cats Adequate <> []).

(** A catalog with TinyLlama alone: one Good model, no Excellent one. *)
Definition catalog_tinyllama : catalog :=
  [ ("TinyLlama-1.1B-Chat-v1.0-q4f32_1"%string, tinyllama) ].

(** The five lists of the scatter chart all have the length [n]. *)
Definition chart_lengths (d : MemoryChart.data) (n : nat) : Prop :=
  List.length (MemoryChart.models d) = n /\
  List.length (MemoryChart.memory_mb d) = n /\
  List.length (MemoryChart.sentiment_scores d) = n /\
  List.length (MemoryChart.sizes d) = n /\
  List.length (MemoryChart.colors d) = n.

(** The file system lets [main] write all its outputs: the charts
    directory exists or can be created under [/workspace], the data
    directory exists, and no output path is taken by a directory. *)
Definition outputs_ready (fs : FS.t) : Prop :=
  (FS.is_dir fs charts_dir = true \/
   (FS.is_file fs charts_dir = false /\ FS.is_dir fs "/workspace" = true)) /\
  FS.is_dir fs memory_chart_png = false /\
  FS.is_dir fs comparison_matrix_png = false /\
  FS.is_dir fs deployment_png = false /\
  FS.is_dir fs data_dir = true /\
  FS.is_dir fs comparison_csv = false /\
  FS.is_dir fs summary_txt = false /\
  FS.is_dir fs findings_json = false.

(** The file system with the charts directory and the three charts. *)
Definition with_charts (fs : FS.t) : FS.t :=
  FS.with_file
    (FS.with_file
       (FS.with_file (FS.with_dir fs charts_dir) memory_chart_png)
       comparison_matrix_png)
    deployment_png.

(** The file system with all six outputs. *)
Definition with_outputs (fs : FS.t) : FS.t :=
  FS.with_file
    (FS.with_file (FS.with_file (with_charts fs) comparison_csv) summary_txt)
    findings_json.

(** The categories from worst to best. *)
Definition category_rank (c : category) : nat :=
  match c with
  | NotSuitable => 0
  | Adequate => 1
  | Good => 2
  | Excellent => 3
  end.

(** ** Facts about float comparisons *)

Module PyFloatFacts.

Lemma ltb_lt a b : PyFloat.ltb a b = true <-> (a < b)%Q.
Proof.
  unfold PyFloat.ltb. rewrite negb_true_iff. split.
  - intro H. apply Qnot_le_lt. intro Hle.
    apply Qle_bool_iff in Hle. congruence.
  - intro H. destruct (Qle_bool b a) eqn:E; [|reflexivity].
    apply Qle_bool_iff in E. exfalso. exact (Qlt_not_le _ _ H E).
Qed.

Lemma ltb_ge a b : PyFloat.ltb a b = false <-> (b <= a)%Q.
Proof.
  unfold PyFloat.ltb. rewrite negb_false_iff. apply Qle_bool_iff.
Qed.

Lemma gtb_gt a b : PyFloat.gtb a b = true <-> (b < a)%Q.
Proof. apply ltb_lt. Qed.

Lemma gtb_le a b : PyFloat.gtb a b = false <-> (a <= b)%Q.
Proof. apply ltb_ge. Qed.

Lemma truthy_false a : PyFloat.truthy a = false <-> (a == 0)%Q.
Proof.
  unfold PyFloat.truthy. rewrite negb_false_iff. apply Qeq_bool_iff.
Qed.

(** A float above a non-negative threshold is not zero. *)
Lemma gtb_truthy a b :
  (0 <= b)%Q -> PyFloat.gtb a b = true -> PyFloat.truthy a = true.
Proof.
  intros Hb H. apply gtb_gt in H.
  destruct (PyFloat.truthy a) eqn:E; [reflexivity|].
  apply truthy_false in E. rewrite E in H.
  exfalso. exact (Qlt_not_le _ _ H Hb).
Qed.

End PyFloatFacts.

(** ** Properties of the scorer *)

(** Above a non-negative threshold the truth test of [o and o > t] is
    redundant. *)
Lemma and_gt_present (x t : PyFloat.t) :
  (0 <= t)%Q -> and_gt (Some x) t = PyFloat.gtb x t.
Proof.
  intro Ht. simpl.
  destruct (PyFloat.gtb x t) eqn:E.
  - rewrite (PyFloatFacts.gtb_truthy x t Ht E). reflexivity.
  - apply andb_false_r.
Qed.

Lemma feasibility_score_sum (r : ModelRecord) :
  feasibility_score r = spec_additive_rule r.
Proof.
  unfold feasibility_score, spec_additive_rule, spec_size_points,
    spec_low_resource_points, spec_sentiment_points, spec_context_points.
  destruct (sentiment_f1_score r) as [f1|].
  - rewrite !and_gt_present by (unfold Qle; simpl; lia).
    destruct (PyFloat.ltb (file_size_gb r) 4.0),
      (PyFloat.ltb (file_size_gb r) 6.0),
      (low_resource_compatible r),
      (PyFloat.gtb f1 60), (PyFloat.gtb f1 50), (PyFloat.gtb f1 40),
      (4096 <=? context_window r)%Z; reflexivity.
  - simpl.
    destruct (PyFloat.ltb (file_size_gb r) 4.0),
      (PyFloat.ltb (file_size_gb r) 6.0),
      (low_resource_compatible r),
      (4096 <=? context_window r)%Z; reflexivity.
Qed.

Lemma spec_size_points_range r : (0 <= spec_size_points r <= 2)%Z.
Proof.
  unfold spec_size_points.
  destruct (PyFloat.ltb (file_size_gb r) 4.0),
    (PyFloat.ltb (file_size_gb r) 6.0); lia.
Qed.

Lemma spec_low_resource_points_range r :
  (0 <= spec_low_resource_points r <= 2)%Z.
Proof.
  unfold spec_low_resource_points. destruct (low_resource_compatible r); lia.
Qed.

Lemma spec_sentiment_points_range r : (0 <= spec_sentiment_points r <= 3)%Z.
Proof.
  unfold spec_sentiment_points. destruct (sentiment_f1_score r) as [f1|]; [|lia].
  destruct (PyFloat.gtb f1 60), (PyFloat.gtb f1 50), (PyFloat.gtb f1 40); lia.
Qed.

Lemma spec_context_points_range r : (0 <= spec_context_points r <= 1)%Z.
Proof.
  unfold spec_context_points. destruct (4096 <=? context_window r)%Z; lia.
Qed.

(** Comparisons against a threshold are monotone in the compared value. *)
Lemma ltb_mono (a b t : PyFloat.t) :
  (a <= b)%Q -> PyFloat.ltb b t = true -> PyFloat.ltb a t = true.
Proof.
  intros Hab H. apply PyFloatFacts.ltb_lt in H. apply PyFloatFacts.ltb_lt.
  exact (Qle_lt_trans _ _ _ Hab H).
Qed.

Lemma gtb_mono (a b t : PyFloat.t) :
  (a <= b)%Q -> PyFloat.gtb a t = true -> PyFloat.gtb b t = true.
Proof.
  intros Hab H. apply PyFloatFacts.gtb_gt in H. apply PyFloatFacts.gtb_gt.
  exact (Qlt_le_trans _ _ _ H Hab).
Qed.

Lemma spec_size_points_antitone (r : ModelRecord) (x : PyFloat.t) :
  (x <= file_size_gb r)%Q ->
  (spec_size_points r <= spec_size_points (set_file_size_gb r x))%Z.
Proof.
  intro Hx. unfold spec_size_points. simpl.
  destruct (PyFloat.ltb (file_size_gb r) 4.0) eqn:E4.
  - rewrite (ltb_mono _ _ _ Hx E4). lia.
  - destruct (PyFloat.ltb (file_size_gb r) 6.0) eqn:E6.
    + rewrite (ltb_mono _ _ _ Hx E6).
      destruct (PyFloat.ltb x 4.0); lia.
    + destruct (PyFloat.ltb x 4.0), (PyFloat.ltb x 6.0); lia.
Qed.

Lemma spec_sentiment_points_monotone (r : ModelRecord) (x y : PyFloat.t) :
  sentiment_f1_score r = Some x -> (x <= y)%Q ->
  (spec_sentiment_points r
   <= spec_sentiment_points (set_sentiment_f1_score r (Some y)))%Z.
Proof.
  intros Hr Hxy. unfold spec_sentiment_points. simpl. rewrite Hr.
  destruct (PyFloat.gtb x 60) eqn:E60.
  - rewrite (gtb_mono _ _ _ Hxy E60). lia.
  - destruct (PyFloat.gtb x 50) eqn:E50.
    + rewrite (gtb_mono _ _ _ Hxy E50). destruct (PyFloat.gtb y 60); lia.
    + destruct (PyFloat.gtb x 40) eqn:E40.
      * rewrite (gtb_mono _ _ _ Hxy E40).
        destruct (PyFloat.gtb y 60), (PyFloat.gtb y 50); lia.
      * destruct (PyFloat.gtb y 60), (PyFloat.gtb y 50), (PyFloat.gtb y 40); lia.
Qed.

(** ** Properties of [max] and [min] with a key *)

Section MaxMinFacts.
Context {A : Type} (key : A -> PyFloat.t).

(** A candidate that no later item exceeds is kept. *)
Lemma max_from_keeps (best : A) (items : list A) :
  (forall x, In x items -> (key x <= key best)%Q) ->
  max_from key best items = best.
Proof.
  induction items as [|x rest IH]; intro Hle; [reflexivity|].
  simpl.
  assert (E : PyFloat.gtb (key x) (key best) = false)
    by (apply PyFloatFacts.gtb_le, Hle; left; reflexivity).
  rewrite E. apply IH. intros y Hy. apply Hle. right. exact Hy.
Qed.

(** An item strictly above everything before it and not exceeded by
    anything after it is the result. *)
Lemma max_from_first_maximum (a : A) (before after : list A) :
  (forall x, In x before -> (key x < key a)%Q) ->
  (forall x, In x after -> (key x <= key a)%Q) ->
  forall best, (key best < key a)%Q ->
  max_from key best (before ++ a :: after) = a.
Proof.
  intros Hbefore Hafter.
  induction before as [|x rest IH]; intros best Hbest; simpl.
  - assert (E : PyFloat.gtb (key a) (key best) = true)
      by (apply PyFloatFacts.gtb_gt; exact Hbest).
    rewrite E. apply max_from_keeps. exact Hafter.
  - assert (Hrest : forall y, In y rest -> (key y < key a)%Q)
      by (intros y Hy; apply Hbefore; right; exact Hy).
    destruct (PyFloat.gtb (key x) (key best)).
    + apply (IH Hrest). apply Hbefore. left. reflexivity.
    + apply (IH Hrest). exact Hbest.
Qed.

Lemma py_max_first_maximum (a : A) (before after : list A) :
  (forall x, In x before -> (key x < key a)%Q) ->
  (forall x, In x after -> (key x <= key a)%Q) ->
  py_max key (before ++ a :: after) = Return a.
Proof.
  intros Hbefore Hafter. destruct before as [|x rest]; simpl.
  - f_equal. apply max_from_keeps. exact Hafter.
  - f_equal. apply max_from_first_maximum.
    + intros y Hy. apply Hbefore. right. exact Hy.
    + exact Hafter.
    + apply Hbefore. left. reflexivity.
Qed.

End MaxMinFacts.

(** ** Properties of the summary's list comprehensions *)

Lemma sentiment_pairs_app (l1 l2 : catalog) :
  sentiment_pairs (l1 ++ l2) = sentiment_pairs l1 ++ sentiment_pairs l2.
Proof.
  induction l1 as [|[name data] rest IH]; [reflexivity|].
  simpl. destruct (sentiment_f1_score data) as [x|]; [|exact IH].
  destruct (PyFloat.truthy x); [|exact IH].
  simpl. f_equal. exact IH.
Qed.

(** A record whose score is false (absent or zero) yields no pair. *)
Lemma sentiment_pairs_skip (name : string) (data : ModelRecord) :
  opt_truthy (sentiment_f1_score data) = false ->
  forall rest, sentiment_pairs ((name, data) :: rest) = sentiment_pairs rest.
Proof.
  intros H rest. simpl. destruct (sentiment_f1_score data) as [x|]; [|reflexivity].
  simpl in H. rewrite H. reflexivity.
Qed.

Lemma sentiment_pairs_keep (name : string) (data : ModelRecord) (x : PyFloat.t) :
  sentiment_f1_score data = Some x -> PyFloat.truthy x = true ->
  forall rest,
    sentiment_pairs ((name, data) :: rest) = (name, x) :: sentiment_pairs rest.
Proof.
  intros Hs Ht rest. simpl. rewrite Hs, Ht. reflexivity.
Qed.

(** Every pair comes from a record of the catalog that holds that score. *)
Lemma sentiment_pairs_In (models : catalog) (name : string) (x : PyFloat.t) :
  In (name, x) (sentiment_pairs models) ->
  exists data, In (name, data) models /\ sentiment_f1_score data = Some x.
Proof.
  induction models as [|[n d] rest IH]; simpl; [intros []|].
  destruct (sentiment_f1_score d) as [y|] eqn:Ed.
  - destruct (PyFloat.truthy y).
    + intros [Heq | Hin].
      * inversion Heq; subst. exists d. split; [left; reflexivity | exact Ed].
      * destruct (IH Hin) as [data [H1 H2]]. exists data. split; [right|]; assumption.
    + intro Hin. destruct (IH Hin) as [data [H1 H2]].
      exists data. split; [right|]; assumption.
  - intro Hin. destruct (IH Hin) as [data [H1 H2]].
    exists data. split; [right|]; assumption.
Qed.

Lemma sentiment_pairs_none (models : catalog) :
  (forall name data, In (name, data) models ->
                     opt_truthy (sentiment_f1_score data) = false) ->
  sentiment_pairs models = [].
Proof.
  induction models as [|[n d] rest IH]; intro H; [reflexivity|].
  rewrite sentiment_pairs_skip by (apply (H n); left; reflexivity).
  apply IH. intros name data Hin. apply (H name). right. exact Hin.
Qed.

(** Without pairs the [max] entry raises and nothing after it runs. *)
Lemma generate_analysis_summary_raises (models : catalog) :
  sentiment_pairs models = [] ->
  generate_analysis_summary models
  = Raise (ValueError "max() arg is an empty sequence").
Proof.
  intro H. unfold generate_analysis_summary. rewrite H. reflexivity.
Qed.

(** The length of a filtered list only depends on the test's outcomes. *)
Lemma filter_length_replace {A : Type} (p : A -> bool) (a b : A)
    (l1 l2 : list A) :
  p a = p b ->
  List.length (filter p (l1 ++ a :: l2)) = List.length (filter p (l1 ++ b :: l2)).
Proof.
  intro H. rewrite !filter_app, !length_app. simpl. rewrite H.
  destruct (p b); reflexivity.
Qed.

Lemma filter_length_drop {A : Type} (p : A -> bool) (a : A)
    (l1 l2 : list A) :
  p a = false ->
  List.length (filter p (l1 ++ a :: l2)) = List.length (filter p (l1 ++ l2)).
Proof.
  intro H. rewrite !filter_app, !length_app. simpl. rewrite H. reflexivity.
Qed.

(** ** Where the summary and the specified scan agree *)

Section MinFacts.
Context {A : Type} (key : A -> PyFloat.t).

Lemma min_from_In (best : A) (items : list A) :
  In (min_from key best items) (best :: items).
Proof.
  revert best. induction items as [|x rest IH]; intro best; simpl.
  - left. reflexivity.
  - destruct (PyFloat.ltb (key x) (key best)).
    + right. apply IH.
    + destruct (IH best) as [H | H]; [left | right; right]; exact H.
Qed.

Lemma min_from_le (best : A) (items : list A) :
  forall x, In x (best :: items) ->
            (key (min_from key best items) <= key x)%Q.
Proof.
  revert best. induction items as [|x rest IH]; intros best y Hy.
  - destruct Hy as [Hy | []]. subst. simpl. apply Qle_refl.
  - simpl. destruct (PyFloat.ltb (key x) (key best)) eqn:E.
    + destruct Hy as [Hy | Hy].
      * subst. apply PyFloatFacts.ltb_lt in E.
        apply Qle_trans with (key x);
          [apply IH; left; reflexivity | apply Qlt_le_weak; exact E].
      * apply IH. exact Hy.
    + destruct Hy as [Hy | [Hy | Hy]].
      * subst. apply IH. left. reflexivity.
      * subst. apply PyFloatFacts.ltb_ge in E.
        apply Qle_trans with (key best);
          [apply IH; left; reflexivity | exact E].
      * apply IH. right. exact Hy.
Qed.
End MinFacts.

Lemma size_pairs_In (models : catalog) (entry : string * PyFloat.t) :
  In entry (size_pairs models) ->
  exists data, In (fst entry, data) models /\ file_size_gb data = snd entry.
Proof.
  unfold size_pairs. intro H. apply in_map_iff in H.
  destruct H as [[n d] [Heq Hin]]. subst. exists d. split; [exact Hin | reflexivity].
Qed.

Lemma py_min_size_pairs (models : catalog) (entry : string * PyFloat.t) :
  py_min snd (size_pairs models) = Return entry -> spec_is_smallest models entry.
Proof.
  destruct models as [|[n0 d0] rest]; [discriminate|].
  simpl. intro H. inversion H as [Hentry]. split.
  - apply size_pairs_In. apply (min_from_In snd (n0, file_size_gb d0)).
  - intros name data Hin.
    apply (min_from_le snd (n0, file_size_gb d0) (size_pairs rest)
             (name, file_size_gb data)).
    change ((n0, file_size_gb d0) :: size_pairs rest)
      with (size_pairs ((n0, d0) :: rest)).
    unfold size_pairs.
    exact (in_map (fun item => (fst item, file_size_gb (snd item)))
                  _ (name, data) Hin).
Qed.

(** When no present score is zero, the scan over present scores is the
    [max] over the summary's pairs. *)
Lemma spec_scan_best_sentiment_pairs (models : catalog) :
  (forall n d x, In (n, d) models -> sentiment_f1_score d = Some x ->
                 PyFloat.truthy x = true) ->
  forall acc,
    spec_scan_best_sentiment acc models
    = match acc with
      | Some b => Some (max_from snd b (sentiment_pairs models))
      | None =>
          match sentiment_pairs models with
          | [] => None
          | p :: rest => Some (max_from snd p rest)
          end
      end.
Proof.
  induction models as [|[n d] rest IH]; intros Hnz acc.
  - destruct acc; reflexivity.
  - assert (Hrest : forall n' d' x, In (n', d') rest ->
                      sentiment_f1_score d' = Some x -> PyFloat.truthy x = true)
      by (intros n' d' x Hin; apply (Hnz n' d' x); right; exact Hin).
    simpl. destruct (sentiment_f1_score d) as [x|] eqn:Ed.
    + rewrite (Hnz n d x (or_introl eq_refl) Ed).
      destruct acc as [[n0 best]|].
      * simpl. destruct (PyFloat.gtb x best); rewrite (IH Hrest); reflexivity.
      * rewrite (IH Hrest). reflexivity.
    + rewrite (IH Hrest). reflexivity.
Qed.

Lemma sentiment_pairs_nonempty (models : catalog) (n : string)
    (d : ModelRecord) :
  In (n, d) models -> opt_truthy (sentiment_f1_score d) = true ->
  sentiment_pairs models <> [].
Proof.
  induction models as [|[n' d'] rest IH]; intros Hin Ht; [destruct Hin|].
  destruct Hin as [Heq | Hin].
  - inversion Heq; subst. simpl.
    destruct (sentiment_f1_score d) as [x|]; [|discriminate Ht].
    simpl in Ht. rewrite Ht. discriminate.
  - simpl. destruct (sentiment_f1_score d') as [x|].
    + destruct (PyFloat.truthy x); [discriminate | exact (IH Hin Ht)].
    + exact (IH Hin Ht).
Qed.

(** On every catalog with a present score and no present score equal to
    zero the summary returns the findings the specification describes. *)
Lemma spec_summary_nonzero (models : catalog) :
  (forall n d x, In (n, d) models -> sentiment_f1_score d = Some x ->
                 PyFloat.truthy x = true) ->
  (exists n d, In (n, d) models /\ spec_present (sentiment_f1_score d) = true) ->
  exists f,
    generate_analysis_summary models = Return f /\
    spec_summary models f.
Proof.
  intros Hnz [n [d [Hin Hp]]].
  assert (Hne : sentiment_pairs models <> []).
  { apply (sentiment_pairs_nonempty models n d Hin).
    destruct (sentiment_f1_score d) as [x|] eqn:Ed; [|discriminate Hp].
    exact (Hnz n d x Hin Ed). }
  pose proof (spec_scan_best_sentiment_pairs models Hnz None) as Hscan.
  pose proof (py_min_size_pairs models) as Hmin.
  unfold generate_analysis_summary.
  destruct (sentiment_pairs models) as [|p ps]; [contradiction|].
  destruct models as [|item rest]; [destruct Hin|].
  simpl py_max. simpl py_min in *. simpl bind.
  eexists. split; [reflexivity|].
  unfold spec_summary. simpl.
  split; [exact Hscan|].
  split.
  - unfold with_sentiment_data, spec_count_present_sentiment. f_equal.
    apply filter_ext_in. intros m Hm. apply in_map_iff in Hm.
    destruct Hm as [[n' d'] [Heq Hin']]. simpl in Heq. subst d'.
    destruct (sentiment_f1_score m) as [x|] eqn:Em; [|reflexivity].
    simpl. exact (Hnz n' m x Hin' Em).
  - split; [reflexivity|]. split; [reflexivity|].
    apply Hmin. reflexivity.
Qed.

(** The summary of a catalog whose scored models have a first maximum. *)
Lemma generate_analysis_summary_best (before after : catalog)
    (name : string) (data : ModelRecord) (v : PyFloat.t) :
  sentiment_f1_score data = Some v ->
  PyFloat.truthy v = true ->
  (forall n d x, In (n, d) before ->
                 sentiment_f1_score d = Some x -> (x < v)%Q) ->
  (forall n d x, In (n, d) after ->
                 sentiment_f1_score d = Some x -> (x <= v)%Q) ->
  exists f,
    generate_analysis_summary (before ++ (name, data) :: after) = Return f /\
    Findings.best_sentiment_model f = (name, v).
Proof.
  intros Hs Ht Hbefore Hafter.
  unfold generate_analysis_summary.
  rewrite sentiment_pairs_app, (sentiment_pairs_keep name data v Hs Ht).
  rewrite (py_max_first_maximum snd).
  - simpl.
    destruct (before ++ (name, data) :: after) as [|item rest] eqn:E.
    + destruct before; discriminate E.
    + simpl. eexists. split; reflexivity.
  - intros [n x] Hin. simpl.
    destruct (sentiment_pairs_In _ _ _ Hin) as [d [Hd Hx]].
    exact (Hbefore n d x Hd Hx).
  - intros [n x] Hin. simpl.
    destruct (sentiment_pairs_In _ _ _ Hin) as [d [Hd Hx]].
    exact (Hafter n d x Hd Hx).
Qed.

(** ** The claims of the specification *)

(** C1, as stated, fails: on a catalog without sentiment scores the
    summary does not report the data error named by the specification. *)
Lemma summary_no_data_error :
  (forall name data, In (name, data) catalog_without_scores ->
                     sentiment_f1_score data = None) /\
  ~ spec_reports_data_error
      (generate_analysis_summary catalog_without_scores).
Proof.
  split.
  - intros name data [H | []]. inversion H. reflexivity.
  - intros [e [He Hmsg]]. vm_compute in He. inversion He; subst.
    discriminate Hmsg.
Qed.

(** C1, amended: when no record of the catalog has a sentiment score, the
    summary returns no findings at all: the [max] over the empty list of
    scored models raises the built-in [ValueError]. *)
Theorem summary_without_sentiment_raises (models : catalog) :
  (forall name data, In (name, data) models ->
                     sentiment_f1_score data = None) ->
  generate_analysis_summary models
  = Raise (ValueError "max() arg is an empty sequence").
Proof.
  intro H. apply generate_analysis_summary_raises, sentiment_pairs_none.
  intros name data Hin. rewrite (H name data Hin). reflexivity.
Qed.

Lemma summary_without_sentiment_raises_witness :
  generate_analysis_summary catalog_without_scores
  = Raise (ValueError "max() arg is an empty sequence").
Proof.
  apply summary_without_sentiment_raises.
  intros name data [H | []]. inversion H. reflexivity.
Defined.

(** C2: for every record the scorer returns the sum of the four
    components of the additive rule: 2 / 1 / 0 for a file size below 4.0 /
    below 6.0 / otherwise, 2 for low-resource compatibility, 3 / 2 / 1 / 0
    for a present sentiment score above 60 / 50 / 40 / otherwise and 0 for
    an absent one, and 1 for a context window of at least 4096.  The
    TinyLlama record scores 5 and the SmolLM2-135M record scores 5, both
    in the Good bucket. *)
Theorem feasibility_score_additive_rule :
  (forall r : ModelRecord, feasibility_score r = spec_additive_rule r) /\
  (feasibility_score tinyllama = 5%Z /\
   categorize (feasibility_score tinyllama) = Good) /\
  (feasibility_score smollm2_135m = 5%Z /\
   categorize (feasibility_score smollm2_135m) = Good).
Proof.
  split; [exact feasibility_score_sum|].
  repeat split; reflexivity.
Qed.

(** C3: bucketing is a total function of the score with inclusive lower
    bounds taken in descending order: 7 and above is Excellent, 5 and 6
    are Good, 3 and 4 are Adequate, 0 to 2 are Not Suitable. *)
Theorem categorize_thresholds (score : Z) :
  ((7 <= score)%Z -> categorize score = Excellent) /\
  ((5 <= score < 7)%Z -> categorize score = Good) /\
  ((3 <= score < 5)%Z -> categorize score = Adequate) /\
  ((0 <= score <= 2)%Z -> categorize score = NotSuitable) /\
  categorize 7 = Excellent /\ categorize 5 = Good /\ categorize 3 = Adequate.
Proof.
  unfold categorize.
  repeat split; try reflexivity; intro H;
    destruct (7 <=? score)%Z eqn:E7; destruct (5 <=? score)%Z eqn:E5;
    destruct (3 <=? score)%Z eqn:E3; try reflexivity;
    try apply Z.leb_le in E7; try apply Z.leb_gt in E7;
    try apply Z.leb_le in E5; try apply Z.leb_gt in E5;
    try apply Z.leb_le in E3; try apply Z.leb_gt in E3; lia.
Qed.

Lemma categorize_thresholds_witness :
  categorize 8 = Excellent /\ categorize 6 = Good /\
  categorize 4 = Adequate /\ categorize 1 = NotSuitable.
Proof.
  split; [|split; [|split]].
  - destruct (categorize_thresholds 8) as [H _]. apply H. lia.
  - destruct (categorize_thresholds 6) as [_ [H _]]. apply H. lia.
  - destruct (categorize_thresholds 4) as [_ [_ [H _]]]. apply H. lia.
  - destruct (categorize_thresholds 1) as [_ [_ [_ [H _]]]]. apply H. lia.
Defined.

(** C4: the scorer is monotonic: a smaller file size, low-resource
    compatibility switched on, or a higher present sentiment score, the
    other fields unchanged, never lowers the score. *)
Theorem feasibility_score_monotonic (r r' : ModelRecord) :
  improves r r' -> (feasibility_score r <= feasibility_score r')%Z.
Proof.
  intro H. rewrite !feasibility_score_sum. unfold spec_additive_rule.
  destruct H as [r x Hx | r Hlow | r x y Hr Hxy].
  - pose proof (spec_size_points_antitone r x Hx).
    change (spec_low_resource_points (set_file_size_gb r x))
      with (spec_low_resource_points r).
    change (spec_sentiment_points (set_file_size_gb r x))
      with (spec_sentiment_points r).
    change (spec_context_points (set_file_size_gb r x))
      with (spec_context_points r).
    lia.
  - change (spec_size_points (set_low_resource_compatible r true))
      with (spec_size_points r).
    change (spec_sentiment_points (set_low_resource_compatible r true))
      with (spec_sentiment_points r).
    change (spec_context_points (set_low_resource_compatible r true))
      with (spec_context_points r).
    unfold spec_low_resource_points. simpl. rewrite Hlow. lia.
  - pose proof (spec_sentiment_points_monotone r x y Hr Hxy).
    change (spec_size_points (set_sentiment_f1_score r (Some y)))
      with (spec_size_points r).
    change (spec_low_resource_points (set_sentiment_f1_score r (Some y)))
      with (spec_low_resource_points r).
    change (spec_context_points (set_sentiment_f1_score r (Some y)))
      with (spec_context_points r).
    lia.
Qed.

Lemma feasibility_score_monotonic_witness :
  (feasibility_score tinyllama
   <= feasibility_score (set_sentiment_f1_score tinyllama (Some 55.0%Q)))%Z.
Proof.
  apply feasibility_score_monotonic.
  apply (improves_sentiment tinyllama 45.18 55.0).
  - reflexivity.
  - unfold Qle. simpl. lia.
Defined.

(** C5: for every record the score lies between 0 and 8. *)
Theorem feasibility_score_range (r : ModelRecord) :
  (0 <= feasibility_score r <= 8)%Z.
Proof.
  rewrite feasibility_score_sum. unfold spec_additive_rule.
  pose proof (spec_size_points_range r).
  pose proof (spec_low_resource_points_range r).
  pose proof (spec_sentiment_points_range r).
  pose proof (spec_context_points_range r).
  lia.
Qed.

(** C6 fails where a present score is zero.  With TinyLlama scored 0.0 as
    the only scored record the scan over present scores yields that
    record, but the summary raises; with Qwen2.5-1.5B next to it two
    records have a present score, but the summary counts one. *)
Theorem summary_zero_score_divergence :
  (spec_present (sentiment_f1_score tinyllama_zero) = true /\
   spec_scan_best_sentiment None catalog_zero_only
   = Some ("TinyLlama-1.1B-Chat-v1.0-q4f32_1"%string, 0.0%Q) /\
   generate_analysis_summary catalog_zero_only
   = Raise (ValueError "max() arg is an empty sequence")) /\
  (spec_count_present_sentiment catalog_zero_and_qwen = 2%nat /\
   exists f,
     generate_analysis_summary catalog_zero_and_qwen = Return f /\
     Findings.models_with_sentiment_data f = 1%nat) /\
  ~ (exists f,
       generate_analysis_summary catalog_zero_only = Return f /\
       spec_summary catalog_zero_only f) /\
  ~ (exists f,
       generate_analysis_summary catalog_zero_and_qwen = Return f /\
       spec_summary catalog_zero_and_qwen f).
Proof.
  split; [repeat split; reflexivity|].
  split; [split; [reflexivity | eexists; split; reflexivity]|].
  split.
  - intros [f [Hf _]]. vm_compute in Hf. discriminate Hf.
  - intros [f [Hf [_ [Hcount _]]]]. vm_compute in Hf. inversion Hf; subst.
    vm_compute in Hcount. discriminate Hcount.
Qed.

(** C8: a record whose sentiment score is present and zero is scored as if
    the score were absent (none of the three sentiment branches fires),
    is not counted among the models with sentiment data, gets the same
    ['N/A'] table cell, and leaves the whole summary, findings or error,
    as it is with the score absent. *)
Theorem zero_sentiment_as_absent (r : ModelRecord) (x : PyFloat.t) :
  sentiment_f1_score r = Some x -> (x == 0)%Q ->
  (and_gt (sentiment_f1_score r) 60 = false /\
   and_gt (sentiment_f1_score r) 50 = false /\
   and_gt (sentiment_f1_score r) 40 = false) /\
  feasibility_score r = feasibility_score (set_sentiment_f1_score r None) /\
  or_na (sentiment_f1_score r) = or_na None /\
  forall (before after : catalog) (name : string),
    List.length (with_sentiment_data (before ++ (name, r) :: after))
    = List.length (with_sentiment_data (before ++ after)) /\
    generate_analysis_summary (before ++ (name, r) :: after)
    = generate_analysis_summary
        (before ++ (name, set_sentiment_f1_score r None) :: after).
Proof.
  intros Hr Hx.
  assert (Ht : PyFloat.truthy x = false)
    by (apply PyFloatFacts.truthy_false; exact Hx).
  assert (Hot : opt_truthy (sentiment_f1_score r) = false)
    by (rewrite Hr; exact Ht).
  split; [|split; [|split]].
  - rewrite Hr. simpl. rewrite Ht. repeat split; reflexivity.
  - unfold feasibility_score. rewrite Hr. simpl. rewrite Ht. reflexivity.
  - rewrite Hr. simpl. rewrite Ht. reflexivity.
  - intros before after name. split.
    + unfold with_sentiment_data. rewrite !map_app. simpl.
      apply filter_length_drop. exact Hot.
    + unfold generate_analysis_summary, with_sentiment_data, under_4gb,
        low_resource, size_pairs.
      rewrite !map_app. simpl.
      rewrite !(sentiment_pairs_app before).
      rewrite (sentiment_pairs_skip name r Hot).
      rewrite (sentiment_pairs_skip name (set_sentiment_f1_score r None))
        by reflexivity.
      rewrite !length_app. simpl.
      rewrite (filter_length_replace _ r (set_sentiment_f1_score r None))
        by (simpl; exact Hot).
      rewrite (filter_length_replace
                 (fun m => PyFloat.ltb (file_size_gb m) 4.0) r
                 (set_sentiment_f1_score r None)) by reflexivity.
      rewrite (filter_length_replace
                 (fun m => low_resource_compatible m) r
                 (set_sentiment_f1_score r None)) by reflexivity.
      reflexivity.
Qed.

Lemma zero_sentiment_as_absent_witness :
  feasibility_score tinyllama_zero
  = feasibility_score (set_sentiment_f1_score tinyllama_zero None).
Proof.
  destruct (zero_sentiment_as_absent tinyllama_zero 0.0) as [_ [H _]].
  - reflexivity.
  - reflexivity.
  - exact H.
Defined.

(** Where the shared maximal score is not zero, the summary's
    best-sentiment entry is the earliest of the records that share it: a
    record with a non-zero score that is above every score before it and
    not below any score after it is the entry.  On the embedded catalog,
    where both gemma records score 62.62, the entry is
    gemma-2-2b-it-q4f32_1. *)
Theorem best_sentiment_earliest_maximum :
  (forall (before after : catalog) (name : string) (data : ModelRecord)
          (v : PyFloat.t),
      sentiment_f1_score data = Some v ->
      PyFloat.truthy v = true ->
      (forall n d x, In (n, d) before ->
                     sentiment_f1_score d = Some x -> (x < v)%Q) ->
      (forall n d x, In (n, d) after ->
                     sentiment_f1_score d = Some x -> (x <= v)%Q) ->
      exists f,
        generate_analysis_summary (before ++ (name, data) :: after)
        = Return f /\
        Findings.best_sentiment_model f = (name, v)) /\
  In ("gemma-2-2b-it-q4f32_1"%string, gemma_2_2b) webllm_models /\
  In ("gemma-2-2b-it-q4f32_1-1k"%string, gemma_2_2b_1k) webllm_models /\
  exists f,
    generate_analysis_summary webllm_models = Return f /\
    Findings.best_sentiment_model f
    = ("gemma-2-2b-it-q4f32_1"%string, 62.62%Q).
Proof.
  split; [exact generate_analysis_summary_best|].
  split; [do 11 right; left; reflexivity|].
  split; [do 12 right; left; reflexivity|].
  eexists. split; vm_compute; reflexivity.
Qed.

Lemma best_sentiment_earliest_maximum_witness :
  exists f,
    generate_analysis_summary
      ([("Qwen2.5-1.5B-Instruct-q4f32_1"%string,
         mkModelRecord 1888.97 "1.5B" true 4096 "q4f32_1"
           (Some 58.29%Q) None 1.89)]
       ++ ("gemma-2-2b-it-q4f32_1"%string, gemma_2_2b)
       :: [("gemma-2-2b-it-q4f32_1-1k"%string, gemma_2_2b_1k)])
    = Return f /\
    Findings.best_sentiment_model f
    = ("gemma-2-2b-it-q4f32_1"%string, 62.62%Q).
Proof.
  destruct best_sentiment_earliest_maximum as [H _].
  apply H.
  - reflexivity.
  - reflexivity.
  - intros n d x [Hin | []] Hs. inversion Hin; subst. simpl in Hs.
    inversion Hs; subst. reflexivity.
  - intros n d x [Hin | []] Hs. inversion Hin; subst. simpl in Hs.
    inversion Hs; subst. unfold Qle. simpl. lia.
Defined.

(** C9 fails where the shared maximal score is zero.  With TinyLlama and
    Qwen2.5-1.5B both scored 0.0, the two records share the maximal
    present score and TinyLlama is the earlier one, as the scan over the
    present scores finds; the summary has no best-sentiment entry for
    this catalog, it raises. *)
Theorem best_sentiment_zero_tie_divergence :
  In ("TinyLlama-1.1B-Chat-v1.0-q4f32_1"%string, tinyllama_zero)
     catalog_zero_tie /\
  In ("Qwen2.5-1.5B-Instruct-q4f32_1"%string, qwen_zero) catalog_zero_tie /\
  sentiment_f1_score tinyllama_zero = Some 0.0%Q /\
  sentiment_f1_score qwen_zero = Some 0.0%Q /\
  spec_scan_best_sentiment None catalog_zero_tie
  = Some ("TinyLlama-1.1B-Chat-v1.0-q4f32_1"%string, 0.0%Q) /\
  generate_analysis_summary catalog_zero_tie
  = Raise (ValueError "max() arg is an empty sequence") /\
  ~ (exists f,
       generate_analysis_summary catalog_zero_tie = Return f /\
       Findings.best_sentiment_model f
       = ("TinyLlama-1.1B-Chat-v1.0-q4f32_1"%string, 0.0%Q)).
Proof.
  split; [left; reflexivity|].
  split; [right; left; reflexivity|].
  split; [reflexivity|]. split; [reflexivity|].
  split; [reflexivity|]. split; [reflexivity|].
  intros [f [Hf _]]. vm_compute in Hf. discriminate Hf.
Qed.

(** C10: every record of the embedded catalog has a file size below 4.0
    and is low-resource compatible or has a context window of at least
    4096, so its score is at least 3 and the Not Suitable list stays
    empty. *)
Theorem embedded_catalog_all_suitable :
  Forall (fun item =>
            PyFloat.ltb (file_size_gb (snd item)) 4.0 = true /\
            (low_resource_compatible (snd item) = true \/
             (4096 <= context_window (snd item))%Z) /\
            (3 <= feasibility_score (snd item))%Z)
         webllm_models /\
  deployment_categories webllm_models NotSuitable = [].
Proof.
  split.
  - unfold webllm_models.
    repeat (apply Forall_cons;
            [ split; [reflexivity|];
              split; [ simpl; first [ left; reflexivity | right; lia ]
                     | vm_compute; discriminate ] | ]).
    apply Forall_nil.
  - vm_compute. reflexivity.
Qed.

(** ** Further properties: base names *)

Lemma string_app_assoc (a b c : string) :
  ((a ++ b) ++ c)%string = (a ++ (b ++ c))%string.
Proof.
  induction a as [|ch a IH]; [reflexivity|]. simpl. rewrite IH. reflexivity.
Qed.

Lemma string_app_length (a b : string) :
  String.length (a ++ b) = (String.length a + String.length b)%nat.
Proof.
  induction a as [|ch a IH]; [reflexivity|]. simpl. rewrite IH. reflexivity.
Qed.

Lemma string_app_nil_r (a : string) : (a ++ "")%string = a.
Proof.
  induction a as [|ch a IH]; [reflexivity|]. simpl. rewrite IH. reflexivity.
Qed.

Lemma prefix_nil (s : string) : String.prefix "" s = true.
Proof. destruct s; reflexivity. Qed.

Lemma prefix_append (sep t : string) : String.prefix sep (sep ++ t) = true.
Proof.
  induction sep as [|ch sep IH]; simpl; [apply prefix_nil|].
  destruct (ascii_dec ch ch) as [_ | Hne]; [exact IH | contradiction].
Qed.

Lemma prefix_split (sep s : string) :
  String.prefix sep s = true -> exists t, s = (sep ++ t)%string.
Proof.
  revert s. induction sep as [|ch sep IH]; intros s H.
  - exists s. reflexivity.
  - destruct s as [|c s]; simpl in H; [discriminate|].
    destruct (ascii_dec ch c) as [Heq | Hne]; [|discriminate].
    subst c. destruct (IH s H) as [t Ht]. exists t. simpl. rewrite <- Ht.
    reflexivity.
Qed.

(** Whether [sep] starts a string is decided within its first
    [length sep] characters. *)
Lemma prefix_app_long (sep x s : string) :
  (String.length sep <= String.length x)%nat ->
  String.prefix sep (x ++ s) = String.prefix sep x.
Proof.
  revert x. induction sep as [|ch sep IH]; intros x H.
  - rewrite !prefix_nil. reflexivity.
  - destruct x as [|c x]; simpl in H; [lia|]. simpl.
    destruct (ascii_dec ch c); [apply IH; lia | reflexivity].
Qed.

Lemma split_first_nil (sep : string) : split_first sep "" = ""%string.
Proof. destruct sep; reflexivity. Qed.

Lemma split_first_cons (sep : string) (c : ascii) (s : string) :
  split_first sep (String c s)
  = if String.prefix sep (String c s) then ""%string
    else String c (split_first sep s).
Proof. reflexivity. Qed.

(** The result is a prefix of the string, followed by nothing or by the
    separator. *)
Lemma split_first_prefix (sep s : string) :
  exists rest,
    s = (split_first sep s ++ rest)%string /\
    (rest = ""%string \/ String.prefix sep rest = true).
Proof.
  induction s as [|c s IH].
  - exists ""%string. rewrite split_first_nil. split; [reflexivity | left; reflexivity].
  - rewrite split_first_cons. destruct (String.prefix sep (String c s)) eqn:E.
    + exists (String c s). split; [reflexivity | right; exact E].
    + destruct IH as [rest [Hs Hrest]]. exists rest. split; [|exact Hrest].
      simpl. rewrite <- Hs. reflexivity.
Qed.

(** The result ends at or before every occurrence of the separator. *)
Lemma split_first_before (sep a b : string) :
  (String.length (split_first sep (a ++ sep ++ b)) <= String.length a)%nat.
Proof.
  induction a as [|c a IH].
  - simpl append. destruct (sep ++ b)%string as [|c s] eqn:E.
    + rewrite split_first_nil. simpl. lia.
    + rewrite split_first_cons, <- E, prefix_append. simpl. lia.
  - change (String c a ++ sep ++ b)%string with (String c (a ++ sep ++ b)).
    rewrite split_first_cons.
    destruct (String.prefix sep (String c (a ++ sep ++ b))); simpl; lia.
Qed.

Lemma split_first_free (sep s : string) :
  sep <> ""%string ->
  forall a b, split_first sep s <> (a ++ sep ++ b)%string.
Proof.
  intros Hsep a b Heq.
  destruct (split_first_prefix sep s) as [rest [Hs _]].
  pose proof (split_first_before sep a (b ++ rest)) as Hlen.
  rewrite Heq, !string_app_assoc in Hs. rewrite <- Hs, Heq in Hlen.
  rewrite !string_app_length in Hlen.
  destruct sep as [|c sep]; [contradiction|]. simpl in Hlen. lia.
Qed.

(** What follows the first separator has no influence. *)
Lemma split_first_suffix (sep p s : string) :
  split_first sep (p ++ sep ++ s) = split_first sep (p ++ sep).
Proof.
  induction p as [|c p IH].
  - simpl append. destruct sep as [|ch sep].
    + simpl. destruct s; reflexivity.
    + pose proof (prefix_append (String ch sep) s) as H1.
      pose proof (prefix_append (String ch sep) "") as H2.
      rewrite string_app_nil_r in H2.
      change (String ch sep ++ s)%string with (String ch (sep ++ s)) in *.
      rewrite !split_first_cons, H1, H2. reflexivity.
  - change (String c p ++ sep ++ s)%string with (String c (p ++ sep ++ s)).
    change (String c p ++ sep)%string with (String c (p ++ sep)).
    rewrite !split_first_cons, IH.
    replace (String c (p ++ sep ++ s))
      with (String c (p ++ sep) ++ s)%string
      by (simpl; rewrite string_app_assoc; reflexivity).
    rewrite prefix_app_long
      by (simpl; rewrite string_app_length; lia).
    reflexivity.
Qed.

(** X1: for a non-empty [sep], the only kind [str.split] accepts,
    [s.split(sep)[0]] is the part of [s] before the first occurrence of
    [sep]: it is a prefix of [s] that is followed by [sep] unless it is
    all of [s], it ends at or before every occurrence of [sep], and it
    contains no occurrence itself. *)
Theorem split_first_first_occurrence (sep s : string) :
  sep <> ""%string ->
  (exists rest,
      s = (split_first sep s ++ rest)%string /\
      (rest = ""%string \/ String.prefix sep rest = true)) /\
  (forall a b, s = (a ++ sep ++ b)%string ->
               (String.length (split_first sep s) <= String.length a)%nat) /\
  (forall a b, split_first sep s <> (a ++ sep ++ b)%string).
Proof.
  intro Hsep. split; [apply split_first_prefix|]. split.
  - intros a b Hs. subst s. apply split_first_before.
  - apply split_first_free. exact Hsep.
Qed.

Lemma split_first_first_occurrence_witness :
  (String.length
     (split_first "-Instruct" "Llama-3.2-1B-Instruct-q4f16_1")
   <= String.length "Llama-3.2-1B")%nat.
Proof.
  destruct (split_first_first_occurrence "-Instruct"
              "Llama-3.2-1B-Instruct-q4f16_1") as [_ [H _]].
  - discriminate.
  - apply (H "Llama-3.2-1B"%string "-q4f16_1"%string). reflexivity.
Defined.

(** X2: model names that agree up to and including their first
    ['-Instruct'] get the same label in the deployment chart and the same
    ['Model'] cell in the comparison table, whatever follows. *)
Theorem base_name_ignores_suffix (p s1 s2 : string) :
  split_first "-Instruct" (p ++ "-Instruct" ++ s1)
  = split_first "-Instruct" (p ++ "-Instruct" ++ s2) /\
  ComparisonMatrix.base_name (p ++ "-Instruct" ++ s1)
  = ComparisonMatrix.base_name (p ++ "-Instruct" ++ s2).
Proof.
  unfold ComparisonMatrix.base_name.
  rewrite (split_first_suffix "-Instruct" p s1).
  rewrite (split_first_suffix "-Instruct" p s2).
  split; reflexivity.
Qed.

(** X3: the ['Model'] cell is a prefix of the model name and contains
    neither ['-Instruct'] nor ['-q4']. *)
Theorem base_name_clean (model_name : string) :
  (exists rest,
      model_name = (ComparisonMatrix.base_name model_name ++ rest)%string) /\
  (forall a b,
      ComparisonMatrix.base_name model_name <> (a ++ "-Instruct" ++ b)%string) /\
  (forall a b,
      ComparisonMatrix.base_name model_name <> (a ++ "-q4" ++ b)%string).
Proof.
  unfold ComparisonMatrix.base_name.
  destruct (split_first_prefix "-Instruct" model_name) as [r1 [H1 _]].
  destruct (split_first_prefix "-q4" (split_first "-Instruct" model_name))
    as [r2 [H2 _]].
  split; [|split].
  - exists (r2 ++ r1)%string. rewrite <- string_app_assoc, <- H2. exact H1.
  - intros a b Heq.
    apply (split_first_free "-Instruct" model_name ltac:(discriminate)
             a (b ++ r2)%string).
    rewrite H2 at 1. rewrite Heq, !string_app_assoc. reflexivity.
  - apply split_first_free. discriminate.
Qed.

(** ** Further properties: scores and categories *)

Lemma categorize_excellent (score : Z) :
  categorize score = Excellent -> (7 <= score)%Z.
Proof.
  unfold categorize. destruct (7 <=? score)%Z eqn:E7.
  - intros _. apply Z.leb_le. exact E7.
  - destruct (5 <=? score)%Z; [discriminate|].
    destruct (3 <=? score)%Z; discriminate.
Qed.

Lemma categorize_not_suitable (score : Z) :
  categorize score = NotSuitable -> (score < 3)%Z.
Proof.
  unfold categorize. destruct (7 <=? score)%Z; [discriminate|].
  destruct (5 <=? score)%Z; [discriminate|].
  destruct (3 <=? score)%Z eqn:E3; [discriminate|].
  intros _. apply Z.leb_gt. exact E3.
Qed.

(** X4: only a low-resource compatible record with a sentiment score
    above 50 and a file below 6.0 GB can be Excellent; a record without
    sentiment score never is. *)
Theorem excellent_requires (r : ModelRecord) :
  categorize (feasibility_score r) = Excellent ->
  low_resource_compatible r = true /\
  (exists f1, sentiment_f1_score r = Some f1 /\ (50 < f1)%Q) /\
  (file_size_gb r < 6.0)%Q.
Proof.
  intro H. apply categorize_excellent in H.
  rewrite feasibility_score_sum in H. unfold spec_additive_rule in H.
  pose proof (spec_size_points_range r) as Hs.
  pose proof (spec_low_resource_points_range r) as Hl.
  pose proof (spec_sentiment_points_range r) as Hm.
  pose proof (spec_context_points_range r) as Hc.
  split; [|split].
  - unfold spec_low_resource_points in *.
    destruct (low_resource_compatible r); [reflexivity | lia].
  - unfold spec_sentiment_points in *.
    destruct (sentiment_f1_score r) as [f1|]; [|lia].
    exists f1. split; [reflexivity|].
    destruct (PyFloat.gtb f1 60) eqn:E60.
    + apply PyFloatFacts.gtb_gt in E60.
      apply Qlt_trans with 60%Q; [reflexivity | exact E60].
    + destruct (PyFloat.gtb f1 50) eqn:E50.
      * apply PyFloatFacts.gtb_gt. exact E50.
      * destruct (PyFloat.gtb f1 40); lia.
  - unfold spec_size_points in *.
    destruct (PyFloat.ltb (file_size_gb r) 4.0) eqn:E4.
    + apply PyFloatFacts.ltb_lt in E4.
      apply Qlt_trans with 4.0%Q; [exact E4 | reflexivity].
    + destruct (PyFloat.ltb (file_size_gb r) 6.0) eqn:E6.
      * apply PyFloatFacts.ltb_lt. exact E6.
      * lia.
Qed.

Lemma excellent_requires_witness :
  low_resource_compatible gemma_2_2b_1k = true /\
  (exists f1, sentiment_f1_score gemma_2_2b_1k = Some f1 /\ (50 < f1)%Q) /\
  (file_size_gb gemma_2_2b_1k < 6.0)%Q.
Proof.
  apply excellent_requires. reflexivity.
Defined.

(** X5: a record with a file below 4.0 GB that is low-resource compatible
    or has a context window of at least 4096 scores at least 3 and is
    never Not Suitable. *)
Theorem small_model_suitable (r : ModelRecord) :
  (file_size_gb r < 4.0)%Q ->
  low_resource_compatible r = true \/ (4096 <= context_window r)%Z ->
  (3 <= feasibility_score r)%Z /\
  categorize (feasibility_score r) <> NotSuitable.
Proof.
  intros Hsize Hmore.
  assert (H3 : (3 <= feasibility_score r)%Z).
  { rewrite feasibility_score_sum. unfold spec_additive_rule.
    pose proof (spec_sentiment_points_range r) as Hm.
    pose proof (spec_context_points_range r) as Hc.
    pose proof (spec_low_resource_points_range r) as Hl.
    apply PyFloatFacts.ltb_lt in Hsize.
    unfold spec_size_points. rewrite Hsize.
    destruct Hmore as [Hlow | Hctx].
    - unfold spec_low_resource_points in *. rewrite Hlow. lia.
    - apply Z.leb_le in Hctx.
      unfold spec_context_points in *. rewrite Hctx. lia. }
  split; [exact H3|].
  intro Hc. apply categorize_not_suitable in Hc. lia.
Qed.

Lemma small_model_suitable_witness :
  (3 <= feasibility_score smollm2_135m)%Z /\
  categorize (feasibility_score smollm2_135m) <> NotSuitable.
Proof.
  apply small_model_suitable.
  - reflexivity.
  - left. reflexivity.
Defined.

(** The label a model gets in the deployment chart, and its category. *)
Lemma deployment_categories_fold (models : catalog) (acc : categories)
    (c : category) :
  fold_left
    (fun cats item =>
       let '(model_name, data) := item in
       let score := feasibility_score data in
       let base_name := split_first "-Instruct" model_name in
       categories_append cats (categorize score) base_name)
    models acc c
  = acc c
    ++ map (fun item => split_first "-Instruct" (fst item))
         (filter (fun item =>
                    category_eqb (categorize (feasibility_score (snd item))) c)
                 models).
Proof.
  revert acc. induction models as [|[name data] rest IH]; intro acc.
  - simpl. rewrite app_nil_r. reflexivity.
  - simpl fold_left. rewrite IH. unfold categories_append. simpl.
    destruct (category_eqb (categorize (feasibility_score data)) c).
    + simpl. rewrite <- app_assoc. reflexivity.
    + reflexivity.
Qed.

(** X6: each list of the [categories] dict holds, in catalog order, the
    base names of exactly the models whose score falls into that
    category. *)
Theorem deployment_categories_filter (models : catalog) (c : category) :
  deployment_categories models c
  = map (fun item => split_first "-Instruct" (fst item))
      (filter (fun item =>
                 category_eqb (categorize (feasibility_score (snd item))) c)
              models).
Proof.
  unfold deployment_categories. rewrite deployment_categories_fold.
  reflexivity.
Qed.

Lemma deployment_categories_total (models : catalog) :
  (List.length (deployment_categories models Excellent)
   + List.length (deployment_categories models Good)
   + List.length (deployment_categories models Adequate)
   + List.length (deployment_categories models NotSuitable))%nat
  = List.length models.
Proof.
  unfold deployment_categories. rewrite !deployment_categories_fold.
  simpl. rewrite !length_map.
  induction models as [|[name data] rest IH]; [reflexivity|].
  simpl. destruct (categorize (feasibility_score data)); simpl; lia.
Qed.

(** X7: the four lists partition the catalog: their lengths add up to the
    number of models, and every model's base name is in the list of its
    own category. *)
Theorem deployment_categories_partition (models : catalog) :
  (List.length (deployment_categories models Excellent)
   + List.length (deployment_categories models Good)
   + List.length (deployment_categories models Adequate)
   + List.length (deployment_categories models NotSuitable))%nat
  = List.length models /\
  forall name data,
    In (name, data) models ->
    In (split_first "-Instruct" name)
       (deployment_categories models (categorize (feasibility_score data))).
Proof.
  split; [apply deployment_categories_total|].
  intros name data Hin. rewrite deployment_categories_filter.
  apply (in_map (fun item => split_first "-Instruct" (fst item)) _ (name, data)).
  apply filter_In. split; [exact Hin|].
  simpl. destruct (categorize (feasibility_score data)); reflexivity.
Qed.

Lemma deployment_categories_partition_witness :
  In (split_first "-Instruct" "Qwen2.5-1.5B-Instruct-q4f32_1")
     (deployment_categories catalog_zero_and_qwen
        (categorize (feasibility_score qwen_1_5b))).
Proof.
  destruct (deployment_categories_partition catalog_zero_and_qwen) as [_ H].
  apply H. right. left. reflexivity.
Defined.

(** ** Further properties: the deployment chart *)

Ltac split_bars H :=
  repeat match type of H with
         | Forall _ (_ :: _) =>
             let H1 := fresh "Hbar" in
             let H2 := fresh "Hrest" in
             pose proof (Forall_inv H) as H1;
             pose proof (Forall_inv_tail H) as H2;
             clear H; rename H2 into H
         end.

(** X8: the bars are drawn at heights 0, 1, 2, ... without gaps while the
    axis labels heights 0 to 3 with the four category names in order, so
    every bar sits at the label of its own category exactly when no empty
    category comes before a non-empty one. *)
Theorem bars_match_tick_labels (cats : categories) :
  map FeasibilityChart.y (FeasibilityChart.bars cats)
  = seq 0 (List.length (FeasibilityChart.bars cats)) /\
  ((forall b, In b (FeasibilityChart.bars cats) ->
              FeasibilityChart.tick_label (FeasibilityChart.y b)
              = Some (FeasibilityChart.label b))
   <-> filled_from_top cats).
Proof.
  unfold FeasibilityChart.bars, FeasibilityChart.category_order,
    filled_from_top.
  simpl FeasibilityChart.bars_from.
  destruct (cats Excellent) as [|e es]; destruct (cats Good) as [|g gs];
    destruct (cats Adequate) as [|a al];
    destruct (cats NotSuitable) as [|n ns];
    (split; [reflexivity|]); split.
  all: try (intros _; repeat split; intro Hne;
            first [ discriminate | exfalso; apply Hne; reflexivity ]).
  all: try (intros H; exfalso; apply Forall_forall in H; split_bars H;
            unfold FeasibilityChart.tick_label, FeasibilityChart.yticklabels,
              FeasibilityChart.category_order in *;
            simpl in *; congruence).
  all: try (intros [H1 [H2 H3]]; exfalso;
            first [ apply H1; [discriminate | reflexivity]
                  | apply H2; [discriminate | reflexivity]
                  | apply H3; [discriminate | reflexivity] ]).
  all: intros _ b Hin; simpl in Hin;
    repeat (destruct Hin as [Hin | Hin]; [subst b; reflexivity|]);
    destruct Hin.
Qed.

Lemma bars_match_tick_labels_witness :
  Forall (fun b => FeasibilityChart.tick_label (FeasibilityChart.y b)
                   = Some (FeasibilityChart.label b))
         (FeasibilityChart.chart webllm_models).
Proof.
  apply Forall_forall.
  apply (proj2 (bars_match_tick_labels (deployment_categories webllm_models))).
  repeat split; intros _; discriminate.
Defined.

(** With TinyLlama alone the only bar is the Good one, drawn at the
    height that the axis labels Excellent. *)
Lemma chart_tinyllama_mislabelled :
  exists b,
    FeasibilityChart.chart catalog_tinyllama = [b] /\
    FeasibilityChart.label b = "Good for Journaling"%string /\
    FeasibilityChart.tick_label (FeasibilityChart.y b)
    = Some "Excellent for Journaling"%string.
Proof. eexists. split; [reflexivity|]. split; reflexivity. Qed.





(** ** Further properties: the summary *)

Section MaxFacts.
Context {A : Type} (key : A -> PyFloat.t).

Lemma max_from_In (best : A) (items : list A) :
  In (max_from key best items) (best :: items).
Proof.
  revert best. induction items as [|x rest IH]; intro best; simpl.
  - left. reflexivity.
  - destruct (PyFloat.gtb (key x) (key best)).
    + right. apply IH.
    + destruct (IH best) as [H | H]; [left | right; right]; exact H.
Qed.

Lemma max_from_ge (best : A) (items : list A) :
  forall x, In x (best :: items) ->
            (key x <= key (max_from key best items))%Q.
Proof.
  revert best. induction items as [|x rest IH]; intros best z Hz.
  - destruct Hz as [Hz | []]. subst. simpl. apply Qle_refl.
  - simpl. destruct (PyFloat.gtb (key x) (key best)) eqn:E.
    + destruct Hz as [Hz | Hz].
      * subst. apply PyFloatFacts.gtb_gt in E.
        apply Qle_trans with (key x);
          [apply Qlt_le_weak; exact E | apply IH; left; reflexivity].
      * apply IH. exact Hz.
    + destruct Hz as [Hz | [Hz | Hz]].
      * subst. apply IH. left. reflexivity.
      * subst. apply PyFloatFacts.gtb_le in E.
        apply Qle_trans with (key best);
          [exact E | apply IH; left; reflexivity].
      * apply IH. right. exact Hz.
Qed.

(** For [min]: a candidate that nothing later undercuts is kept, and an
    item strictly below everything before it and not undercut by anything
    after it is the result. *)
Lemma min_from_keeps (best : A) (items : list A) :
  (forall x, In x items -> (key best <= key x)%Q) ->
  min_from key best items = best.
Proof.
  induction items as [|x rest IH]; intro Hle; [reflexivity|].
  simpl.
  assert (E : PyFloat.ltb (key x) (key best) = false)
    by (apply PyFloatFacts.ltb_ge, Hle; left; reflexivity).
  rewrite E. apply IH. intros z Hz. apply Hle. right. exact Hz.
Qed.

Lemma min_from_first_minimum (a : A) (before after : list A) :
  (forall x, In x before -> (key a < key x)%Q) ->
  (forall x, In x after -> (key a <= key x)%Q) ->
  forall best, (key a < key best)%Q ->
  min_from key best (before ++ a :: after) = a.
Proof.
  intros Hbefore Hafter.
  induction before as [|x rest IH]; intros best Hbest; simpl.
  - assert (E : PyFloat.ltb (key a) (key best) = true)
      by (apply PyFloatFacts.ltb_lt; exact Hbest).
    rewrite E. apply min_from_keeps. exact Hafter.
  - assert (Hrest : forall z, In z rest -> (key a < key z)%Q)
      by (intros z Hz; apply Hbefore; right; exact Hz).
    destruct (PyFloat.ltb (key x) (key best)).
    + apply (IH Hrest). apply Hbefore. left. reflexivity.
    + apply (IH Hrest). exact Hbest.
Qed.

Lemma py_min_first_minimum (a : A) (before after : list A) :
  (forall x, In x before -> (key a < key x)%Q) ->
  (forall x, In x after -> (key a <= key x)%Q) ->
  py_min key (before ++ a :: after) = Return a.
Proof.
  intros Hbefore Hafter. destruct before as [|x rest]; simpl.
  - f_equal. apply min_from_keeps. exact Hafter.
  - f_equal. apply min_from_first_minimum.
    + intros z Hz. apply Hbefore. right. exact Hz.
    + exact Hafter.
    + apply Hbefore. left. reflexivity.
Qed.
End MaxFacts.

(** Every pair holds a score that is true. *)
Lemma sentiment_pairs_truthy (models : catalog) (name : string)
    (x : PyFloat.t) :
  In (name, x) (sentiment_pairs models) -> PyFloat.truthy x = true.
Proof.
  induction models as [|[n d] rest IH]; simpl; [intros []|].
  destruct (sentiment_f1_score d) as [y|]; [|exact IH].
  destruct (PyFloat.truthy y) eqn:E; [|exact IH].
  intros [Heq | Hin]; [inversion Heq; subst; exact E | exact (IH Hin)].
Qed.

(** Every record with a true score yields its pair. *)
Lemma sentiment_pairs_complete (models : catalog) (name : string)
    (data : ModelRecord) (x : PyFloat.t) :
  In (name, data) models -> sentiment_f1_score data = Some x ->
  PyFloat.truthy x = true -> In (name, x) (sentiment_pairs models).
Proof.
  intros Hin Hs Ht. induction models as [|[n d] rest IH]; [destruct Hin|].
  destruct Hin as [Heq | Hin].
  - inversion Heq; subst. rewrite (sentiment_pairs_keep name data x Hs Ht).
    left. reflexivity.
  - simpl. destruct (sentiment_f1_score d) as [y|]; [|exact (IH Hin)].
    destruct (PyFloat.truthy y); [right|]; exact (IH Hin).
Qed.

Lemma sentiment_pairs_length (models : catalog) :
  List.length (sentiment_pairs models)
  = List.length (with_sentiment_data models).
Proof.
  unfold with_sentiment_data.
  induction models as [|[n d] rest IH]; [reflexivity|].
  simpl. destruct (sentiment_f1_score d) as [y|]; simpl; [|exact IH].
  destruct (PyFloat.truthy y); simpl; rewrite IH; reflexivity.
Qed.

(** What the summary returns, spelled out. *)
Lemma generate_analysis_summary_inv (models : catalog) (f : Findings.t) :
  generate_analysis_summary models = Return f ->
  exists p ps item rest,
    sentiment_pairs models = p :: ps /\ models = item :: rest /\
    f = Findings.mk (List.length models)
          (List.length (with_sentiment_data models))
          (List.length (under_4gb models))
          (List.length (low_resource models))
          (max_from snd p ps)
          (min_from snd (fst item, file_size_gb (snd item)) (size_pairs rest)).
Proof.
  unfold generate_analysis_summary. intro H.
  destruct (sentiment_pairs models) as [|p ps] eqn:Ep; [discriminate H|].
  destruct models as [|item rest]; [discriminate Ep|].
  simpl in H. inversion H. exists p, ps, item, rest.
  split; [reflexivity|]. split; reflexivity.
Qed.

(** X10: the summary returns findings exactly when some record of the
    catalog has a sentiment score that is neither absent nor zero. *)
Theorem summary_returns_iff (models : catalog) :
  (exists f, generate_analysis_summary models = Return f) <->
  (exists name data,
      In (name, data) models /\
      opt_truthy (sentiment_f1_score data) = true).
Proof.
  split.
  - intros [f Hf].
    destruct (generate_analysis_summary_inv models f Hf)
      as [[n x] [ps [item [rest [Hp _]]]]].
    assert (Hin : In (n, x) (sentiment_pairs models))
      by (rewrite Hp; left; reflexivity).
    destruct (sentiment_pairs_In models n x Hin) as [data [Hd Hs]].
    exists n, data. split; [exact Hd|].
    rewrite Hs. exact (sentiment_pairs_truthy models n x Hin).
  - intros [name [data [Hin Ht]]].
    pose proof (sentiment_pairs_nonempty models name data Hin Ht) as Hne.
    unfold generate_analysis_summary.
    destruct (sentiment_pairs models) as [|p ps]; [contradiction|].
    destruct models as [|item rest]; [destruct Hin|].
    simpl. eexists. reflexivity.
Qed.

Lemma summary_returns_iff_witness :
  exists f, generate_analysis_summary catalog_zero_and_qwen = Return f.
Proof.
  apply summary_returns_iff.
  exists "Qwen2.5-1.5B-Instruct-q4f32_1"%string, qwen_1_5b.
  split; [right; left; reflexivity | reflexivity].
Defined.

(** X11: the only exception the summary can raise is the [ValueError] of
    [max]; the [min] over the file sizes never raises, because [max] has
    already failed on an empty catalog.  When it is raised, no record has
    a sentiment score that is neither absent nor zero. *)
Theorem summary_only_error (models : catalog) (e : exception) :
  generate_analysis_summary models = Raise e ->
  e = ValueError "max() arg is an empty sequence" /\
  forall name data,
    In (name, data) models ->
    opt_truthy (sentiment_f1_score data) = false.
Proof.
  unfold generate_analysis_summary. intro H.
  destruct (sentiment_pairs models) as [|p ps] eqn:Ep.
  - simpl in H. inversion H. split; [reflexivity|].
    intros name data Hin.
    destruct (opt_truthy (sentiment_f1_score data)) eqn:Et; [|reflexivity].
    exfalso. exact (sentiment_pairs_nonempty models name data Hin Et Ep).
  - destruct models as [|item rest]; [discriminate Ep|].
    simpl in H. discriminate H.
Qed.

Lemma summary_only_error_witness :
  ValueError "max() arg is an empty sequence"
  = ValueError "max() arg is an empty sequence" /\
  forall name data,
    In (name, data) catalog_zero_only ->
    opt_truthy (sentiment_f1_score data) = false.
Proof.
  apply (summary_only_error catalog_zero_only). reflexivity.
Defined.

(** X12: in returned findings the total is the number of models, none of
    the three counts exceeds it, and at least one model has sentiment
    data. *)
Theorem findings_counts (models : catalog) (f : Findings.t) :
  generate_analysis_summary models = Return f ->
  Findings.total_models_analyzed f = List.length models /\
  (1 <= Findings.models_with_sentiment_data f
   <= Findings.total_models_analyzed f)%nat /\
  (Findings.models_under_4gb f <= Findings.total_models_analyzed f)%nat /\
  (Findings.low_resource_compatible f
   <= Findings.total_models_analyzed f)%nat.
Proof.
  intro H.
  destruct (generate_analysis_summary_inv models f H)
    as [p [ps [item [rest [Hp [Hm Hf]]]]]].
  pose proof (sentiment_pairs_length models) as Hlen. rewrite Hp in Hlen.
  assert (Hmap : List.length (map snd models) = List.length models)
    by apply length_map.
  pose proof (filter_length_le
                (fun m => opt_truthy (sentiment_f1_score m)) (map snd models)).
  pose proof (filter_length_le
                (fun m => PyFloat.ltb (file_size_gb m) 4.0) (map snd models)).
  pose proof (filter_length_le
                (fun m => low_resource_compatible m) (map snd models)).
  subst f. unfold with_sentiment_data, under_4gb, low_resource in *.
  simpl in *. repeat split; lia.
Qed.

Lemma findings_counts_witness :
  exists f,
    generate_analysis_summary webllm_models = Return f /\
    (1 <= Findings.models_with_sentiment_data f
     <= Findings.total_models_analyzed f)%nat.
Proof.
  eexists. split; [reflexivity|].
  eapply (findings_counts webllm_models). reflexivity.
Defined.

(** X13: the best-sentiment entry of returned findings names a record of
    the catalog with that score, the score is not zero, and no score of
    the catalog that is neither absent nor zero exceeds it. *)
Theorem best_sentiment_is_maximum (models : catalog) (f : Findings.t) :
  generate_analysis_summary models = Return f ->
  (exists data,
      In (fst (Findings.best_sentiment_model f), data) models /\
      sentiment_f1_score data = Some (snd (Findings.best_sentiment_model f))) /\
  PyFloat.truthy (snd (Findings.best_sentiment_model f)) = true /\
  forall name data x,
    In (name, data) models -> sentiment_f1_score data = Some x ->
    PyFloat.truthy x = true ->
    (x <= snd (Findings.best_sentiment_model f))%Q.
Proof.
  intro H.
  destruct (generate_analysis_summary_inv models f H)
    as [p [ps [item [rest [Hp [Hm Hf]]]]]].
  assert (Hbest : In (Findings.best_sentiment_model f) (sentiment_pairs models)).
  { subst f. simpl. rewrite Hp. apply max_from_In. }
  destruct (Findings.best_sentiment_model f) as [n v] eqn:Eb. simpl.
  split; [exact (sentiment_pairs_In models n v Hbest)|].
  split; [exact (sentiment_pairs_truthy models n v Hbest)|].
  intros name data x Hin Hs Ht.
  pose proof (sentiment_pairs_complete models name data x Hin Hs Ht) as Hx.
  rewrite Hp in Hx.
  pose proof (max_from_ge snd p ps (name, x) Hx) as Hle.
  subst f. simpl in Eb. rewrite Eb in Hle. exact Hle.
Qed.

Lemma best_sentiment_is_maximum_witness :
  exists f,
    generate_analysis_summary webllm_models = Return f /\
    PyFloat.truthy (snd (Findings.best_sentiment_model f)) = true.
Proof.
  eexists. split; [reflexivity|].
  eapply (best_sentiment_is_maximum webllm_models). reflexivity.
Defined.

(** X14: the smallest-model entry of returned findings names a record of
    the catalog with that file size, and no record of the catalog is
    smaller. *)
Theorem smallest_model_is_minimum (models : catalog) (f : Findings.t) :
  generate_analysis_summary models = Return f ->
  spec_is_smallest models (Findings.smallest_model f).
Proof.
  intro H.
  destruct (generate_analysis_summary_inv models f H)
    as [p [ps [item [rest [Hp [Hm Hf]]]]]].
  apply py_min_size_pairs. subst f models. reflexivity.
Qed.

Lemma smallest_model_is_minimum_witness :
  exists f,
    generate_analysis_summary webllm_models = Return f /\
    spec_is_smallest webllm_models (Findings.smallest_model f).
Proof.
  eexists. split; [reflexivity|].
  apply (smallest_model_is_minimum webllm_models). reflexivity.
Defined.

(** X15: among records of equal smallest file size the smallest-model
    entry is the earliest: on a catalog for which the summary returns, a
    record smaller than every record before it and not larger than any
    record after it is the entry. *)
Theorem smallest_model_earliest_minimum (before after : catalog)
    (name : string) (data : ModelRecord) :
  (exists n d,
      In (n, d) (before ++ (name, data) :: after) /\
      opt_truthy (sentiment_f1_score d) = true) ->
  (forall n d, In (n, d) before -> (file_size_gb data < file_size_gb d)%Q) ->
  (forall n d, In (n, d) after -> (file_size_gb data <= file_size_gb d)%Q) ->
  exists f,
    generate_analysis_summary (before ++ (name, data) :: after) = Return f /\
    Findings.smallest_model f = (name, file_size_gb data).
Proof.
  intros [n [d [Hin Ht]]] Hbefore Hafter.
  pose proof (sentiment_pairs_nonempty _ n d Hin Ht) as Hne.
  unfold generate_analysis_summary.
  destruct (sentiment_pairs (before ++ (name, data) :: after)) as [|p ps];
    [contradiction|].
  simpl py_max. simpl bind.
  unfold size_pairs. rewrite map_app. simpl map.
  rewrite (py_min_first_minimum snd (name, file_size_gb data)).
  - simpl. eexists. split; reflexivity.
  - intros [n' x] Hx. apply in_map_iff in Hx.
    destruct Hx as [[n2 d2] [Heq Hin2]]. simpl in Heq.
    injection Heq as Hn Hsize. simpl. rewrite <- Hsize.
    exact (Hbefore n2 d2 Hin2).
  - intros [n' x] Hx. apply in_map_iff in Hx.
    destruct Hx as [[n2 d2] [Heq Hin2]]. simpl in Heq.
    injection Heq as Hn Hsize. simpl. rewrite <- Hsize.
    exact (Hafter n2 d2 Hin2).
Qed.

Lemma smallest_model_earliest_minimum_witness :
  exists f,
    generate_analysis_summary
      ([("gemma-2-2b-it-q4f32_1"%string, gemma_2_2b)]
       ++ ("Qwen2.5-1.5B-Instruct-q4f32_1"%string, qwen_1_5b)
       :: [("gemma-2-2b-it-q4f32_1-1k"%string,
            set_file_size_gb gemma_2_2b_1k 1.89)])
    = Return f /\
    Findings.smallest_model f
    = ("Qwen2.5-1.5B-Instruct-q4f32_1"%string, file_size_gb qwen_1_5b).
Proof.
  apply smallest_model_earliest_minimum.
  - exists "Qwen2.5-1.5B-Instruct-q4f32_1"%string, qwen_1_5b.
    split; [right; left; reflexivity | reflexivity].
  - intros n d [Hin | []]. inversion Hin; subst. reflexivity.
  - intros n d [Hin | []]. inversion Hin; subst. simpl.
    unfold Qle. simpl. lia.
Defined.

(** ** Further properties: the comparison table *)

Lemma filter_map_length {A B : Type} (g : A -> B) (p : B -> bool)
    (l : list A) :
  List.length (filter p (map g l))
  = List.length (filter (fun a => p (g a)) l).
Proof.
  induction l as [|a rest IH]; [reflexivity|].
  simpl. destruct (p (g a)); simpl; rewrite IH; reflexivity.
Qed.

Lemma yes_no_is_yes (b : bool) :
  String.eqb (ComparisonMatrix.yes_no b) "Yes" = b.
Proof. destruct b; reflexivity. Qed.

Lemma not_na_or_na (o : option PyFloat.t) :
  ComparisonMatrix.not_na (or_na o) = opt_truthy o.
Proof.
  destruct o as [x|]; [|reflexivity]. simpl.
  destruct (PyFloat.truthy x); reflexivity.
Qed.

(** X16: the comparison table and the findings agree: the table has one
    row per analysed model, as many rows reading 'Yes' under 'Under 4GB'
    and under 'Low Resource' as the findings count, and as many rows with
    a number under 'Sentiment F1' as there are models with sentiment
    data. *)
Theorem comparison_matches_summary (models : catalog) (f : Findings.t) :
  generate_analysis_summary models = Return f ->
  List.length (ComparisonMatrix.comparison_data models)
  = Findings.total_models_analyzed f /\
  ComparisonMatrix.count_yes ComparisonMatrix.Under_4GB
    (ComparisonMatrix.comparison_data models)
  = Findings.models_under_4gb f /\
  ComparisonMatrix.count_yes ComparisonMatrix.Low_Resource
    (ComparisonMatrix.comparison_data models)
  = Findings.low_resource_compatible f /\
  List.length
    (filter (fun r => ComparisonMatrix.not_na (ComparisonMatrix.Sentiment_F1 r))
       (ComparisonMatrix.comparison_data models))
  = Findings.models_with_sentiment_data f.
Proof.
  intro H.
  destruct (generate_analysis_summary_inv models f H)
    as [p [ps [item [rest [Hp [Hm Hf]]]]]].
  rewrite Hf. clear Hf Hp Hm H. simpl.
  unfold ComparisonMatrix.count_yes, ComparisonMatrix.comparison_data,
    under_4gb, low_resource, with_sentiment_data.
  rewrite length_map, !filter_map_length.
  repeat split; f_equal; apply filter_ext; intros [n d]; simpl.
  - apply yes_no_is_yes.
  - apply yes_no_is_yes.
  - apply not_na_or_na.
Qed.

Lemma comparison_matches_summary_witness :
  exists f,
    generate_analysis_summary webllm_models = Return f /\
    List.length (ComparisonMatrix.comparison_data webllm_models)
    = Findings.total_models_analyzed f.
Proof.
  eexists. split; [reflexivity|].
  eapply (comparison_matches_summary webllm_models). reflexivity.
Defined.

(** ** Further properties: the scatter chart *)

Section MemoryChartFacts.
Variable float_of_string : string -> result PyFloat.t.
Variable float_div : PyFloat.t -> PyFloat.t -> PyFloat.t.
Variable float_mul : PyFloat.t -> PyFloat.t -> PyFloat.t.


Lemma points_from_lengths (items : catalog) :
  forall (acc d : MemoryChart.data) (n : nat),
    chart_lengths acc n ->
    MemoryChart.points_from float_of_string float_div float_mul acc items
    = Return d ->
    chart_lengths d (n + spec_count_present_sentiment items).
Proof.
  unfold spec_count_present_sentiment.
  induction items as [|[name r] rest IH]; intros acc d n Hacc H.
  - simpl in *. inversion H; subst. rewrite Nat.add_0_r. exact Hacc.
  - simpl in H. unfold MemoryChart.add_point in H.
    destruct (sentiment_f1_score r) as [score|] eqn:Es.
    + destruct (MemoryChart.bubble_size float_of_string float_div float_mul
                  (parameters r)) as [size|e]; [|discriminate H].
      simpl in H. simpl. rewrite Es. simpl.
      replace (n + S (List.length
                        (filter (fun m => spec_present (sentiment_f1_score m))
                           (map snd rest))))%nat
        with (S n + List.length
                      (filter (fun m => spec_present (sentiment_f1_score m))
                         (map snd rest)))%nat by lia.
      refine (IH _ d (S n) _ H).
      destruct Hacc as [H1 [H2 [H3 [H4 H5]]]].
      unfold chart_lengths. simpl. rewrite !length_app. simpl.
      repeat split; lia.
    + simpl in H. simpl. rewrite Es. simpl. apply (IH acc d n Hacc H).
Qed.

Lemma points_from_returns (items : catalog) :
  (forall name r score,
      In (name, r) items -> sentiment_f1_score r = Some score ->
      exists size,
        MemoryChart.bubble_size float_of_string float_div float_mul
          (parameters r) = Return size) ->
  forall acc,
  exists d,
    MemoryChart.points_from float_of_string float_div float_mul acc items
    = Return d.
Proof.
  induction items as [|[name r] rest IH]; intros Hfloat acc.
  - exists acc. reflexivity.
  - simpl. unfold MemoryChart.add_point.
    assert (Hrest : forall name' r' score,
               In (name', r') rest -> sentiment_f1_score r' = Some score ->
               exists size,
                 MemoryChart.bubble_size float_of_string float_div float_mul
                   (parameters r') = Return size)
      by (intros n' r' s' Hin; apply (Hfloat n' r' s'); right; exact Hin).
    destruct (sentiment_f1_score r) as [score|] eqn:Es.
    + destruct (Hfloat name r score (or_introl eq_refl) Es) as [size Hsize].
      rewrite Hsize. simpl. apply (IH Hrest).
    + simpl. apply (IH Hrest).
Qed.

(** X17: when [float] accepts the parameter text of every record with a
    present score, the loop of the scatter chart completes, and its five
    lists all have one entry per record with a present score, so the
    annotation loop never indexes past their end. *)
Theorem memory_chart_points (items : catalog) :
  (forall name r score,
      In (name, r) items -> sentiment_f1_score r = Some score ->
      exists size,
        MemoryChart.bubble_size float_of_string float_div float_mul
          (parameters r) = Return size) ->
  exists d,
    MemoryChart.points float_of_string float_div float_mul items = Return d /\
    chart_lengths d (spec_count_present_sentiment items).
Proof.
  intro Hfloat.
  destruct (points_from_returns items Hfloat MemoryChart.empty) as [d Hd].
  exists d. split; [exact Hd|].
  apply (points_from_lengths items MemoryChart.empty d 0).
  - repeat split.
  - exact Hd.
Qed.

(** X18: on a catalog without any sentiment score the scatter chart is
    built from five empty lists and nothing is raised, whatever [float]
    does, while the summary of the same catalog raises. *)
Theorem memory_chart_without_scores (items : catalog) :
  (forall name r, In (name, r) items -> sentiment_f1_score r = None) ->
  MemoryChart.points float_of_string float_div float_mul items
  = Return MemoryChart.empty /\
  generate_analysis_summary items
  = Raise (ValueError "max() arg is an empty sequence").
Proof.
  intro Hnone. split.
  - unfold MemoryChart.points. generalize MemoryChart.empty.
    induction items as [|[name r] rest IH]; intro acc; [reflexivity|].
    simpl. unfold MemoryChart.add_point.
    rewrite (Hnone name r (or_introl eq_refl)). simpl.
    apply IH. intros n' r' Hin. apply (Hnone n' r'). right. exact Hin.
  - apply generate_analysis_summary_raises, sentiment_pairs_none.
    intros name r Hin. rewrite (Hnone name r Hin). reflexivity.
Qed.

Lemma present_count_ge (items : catalog) :
  (List.length (with_sentiment_data items)
   <= spec_count_present_sentiment items)%nat /\
  (List.length (with_sentiment_data items)
   = spec_count_present_sentiment items <->
   forall name r x,
     In (name, r) items -> sentiment_f1_score r = Some x ->
     PyFloat.truthy x = true).
Proof.
  unfold with_sentiment_data, spec_count_present_sentiment.
  induction items as [|[name r] rest [IHle IHeq]].
  - split; [simpl; lia|]. split; [intros _ n r x []| reflexivity].
  - simpl. destruct (sentiment_f1_score r) as [x|] eqn:Es; simpl.
    + destruct (PyFloat.truthy x) eqn:Et; simpl.
      * split; [lia|]. split.
        -- intros Heq n' r' x' [Hin | Hin] Hs.
           ++ inversion Hin; subst. rewrite Es in Hs. inversion Hs; subst.
              exact Et.
           ++ apply (proj1 IHeq ltac:(lia) n' r' x' Hin Hs).
        -- intro Hall. f_equal. apply IHeq.
           intros n' r' x' Hin. apply (Hall n' r' x'). right. exact Hin.
      * split; [lia|]. split.
        -- intro Heq. lia.
        -- intro Hall.
           pose proof (Hall name r x (or_introl eq_refl) Es). congruence.
    + split; [exact IHle|]. split.
      * intros Heq n' r' x' [Hin | Hin] Hs.
        -- inversion Hin; subst. congruence.
        -- apply (proj1 IHeq Heq n' r' x' Hin Hs).
      * intro Hall. apply IHeq.
        intros n' r' x' Hin. apply (Hall n' r' x'). right. exact Hin.
Qed.

(** X19: the scatter chart plots every record with a present score, a
    score of zero included, so it never has fewer points than the summary
    counts models with sentiment data; the two numbers are equal exactly
    when no present score is zero. *)
Theorem memory_chart_vs_summary (items : catalog) (d : MemoryChart.data)
    (f : Findings.t) :
  MemoryChart.points float_of_string float_div float_mul items = Return d ->
  generate_analysis_summary items = Return f ->
  (Findings.models_with_sentiment_data f
   <= List.length (MemoryChart.sentiment_scores d))%nat /\
  (Findings.models_with_sentiment_data f
   = List.length (MemoryChart.sentiment_scores d) <->
   forall name r x,
     In (name, r) items -> sentiment_f1_score r = Some x ->
     PyFloat.truthy x = true).
Proof.
  intros Hd Hf.
  destruct (points_from_lengths items MemoryChart.empty d 0) as
    [_ [_ [Hlen _]]]; [repeat split | exact Hd |].
  destruct (generate_analysis_summary_inv items f Hf)
    as [p [ps [item [rest [_ [_ Hfeq]]]]]].
  rewrite Hlen, Hfeq. simpl. apply present_count_ge.
Qed.

End MemoryChartFacts.

Lemma memory_chart_points_witness :
  exists d,
    MemoryChart.points (fun _ => Return 1%Q) Qdiv Qmult catalog_zero_and_qwen
    = Return d /\
    chart_lengths d (spec_count_present_sentiment catalog_zero_and_qwen).
Proof.
  apply memory_chart_points.
  intros name r score _ _. eexists. reflexivity.
Defined.

Lemma memory_chart_without_scores_witness :
  MemoryChart.points (fun _ => Return 1%Q) Qdiv Qmult catalog_without_scores
  = Return MemoryChart.empty /\
  generate_analysis_summary catalog_without_scores
  = Raise (ValueError "max() arg is an empty sequence").
Proof.
  apply memory_chart_without_scores.
  intros name r [H | []]. inversion H. reflexivity.
Defined.

Lemma memory_chart_vs_summary_witness :
  exists d f,
    MemoryChart.points (fun _ => Return 1%Q) Qdiv Qmult catalog_zero_and_qwen
    = Return d /\
    generate_analysis_summary catalog_zero_and_qwen = Return f /\
    (Findings.models_with_sentiment_data f
     <= List.length (MemoryChart.sentiment_scores d))%nat.
Proof.
  eexists. eexists. split; [reflexivity|]. split; [reflexivity|].
  eapply (memory_chart_vs_summary (fun _ => Return 1%Q) Qdiv Qmult
            catalog_zero_and_qwen); reflexivity.
Defined.

(** ** Further properties: the run of [main] *)

Lemma summarize_embedded (fs : FS.t) : summarize fs = (fs, None).
Proof. reflexivity. Qed.

Lemma is_dir_with_file (fs : FS.t) (p q : string) :
  FS.is_dir (FS.with_file fs p) q = FS.is_dir fs q.
Proof. unfold FS.with_file. destruct (FS.is_file fs p); reflexivity. Qed.

Lemma is_file_with_file (fs : FS.t) (p q : string) :
  FS.is_file (FS.with_file fs p) q = (String.eqb q p || FS.is_file fs q)%bool.
Proof.
  unfold FS.with_file. destruct (FS.is_file fs p) eqn:E; [|reflexivity].
  destruct (String.eqb_spec q p) as [Heq | Hne]; [|reflexivity].
  subst q. rewrite E. reflexivity.
Qed.

Lemma is_dir_with_dir (fs : FS.t) (p q : string) :
  FS.is_dir (FS.with_dir fs p) q = (String.eqb q p || FS.is_dir fs q)%bool.
Proof.
  unfold FS.with_dir. destruct (FS.is_dir fs p) eqn:E; [|reflexivity].
  destruct (String.eqb_spec q p) as [Heq | Hne]; [|reflexivity].
  subst q. rewrite E. reflexivity.
Qed.

Lemma is_file_with_dir (fs : FS.t) (p q : string) :
  FS.is_file (FS.with_dir fs p) q = FS.is_file fs q.
Proof. unfold FS.with_dir. destruct (FS.is_dir fs p); reflexivity. Qed.

Lemma with_dir_present (fs : FS.t) (p : string) :
  FS.is_dir fs p = true -> FS.with_dir fs p = fs.
Proof. intro H. unfold FS.with_dir. rewrite H. reflexivity. Qed.

Lemma with_file_present (fs : FS.t) (p : string) :
  FS.is_file fs p = true -> FS.with_file fs p = fs.
Proof. intro H. unfold FS.with_file. rewrite H. reflexivity. Qed.

Lemma and_then_eq (a b : action) (fs : FS.t) :
  (a >> b) fs
  = match a fs with
    | (fs', None) => b fs'
    | (fs', Some e) => (fs', Some e)
    end.
Proof. reflexivity. Qed.

Lemma mkdir_exist_ok_eq (parent path : string) (fs : FS.t) :
  mkdir_exist_ok parent path fs
  = if FS.is_dir fs path then (fs, None)
    else if FS.is_file fs path then (fs, Some (OSError path))
    else if FS.is_dir fs parent then (FS.with_dir fs path, None)
    else (fs, Some (OSError path)).
Proof. reflexivity. Qed.

Lemma write_file_eq (parent path : string) (fs : FS.t) :
  write_file parent path fs
  = if FS.is_dir fs path then (fs, Some (OSError path))
    else if FS.is_dir fs parent then (FS.with_file fs path, None)
    else (fs, Some (OSError path)).
Proof. reflexivity. Qed.

(** Membership tests on a file system that steps have extended are
    brought back to tests on the initial one; comparisons between the
    literal paths are evaluated. *)
Ltac fs_norm :=
  repeat rewrite ?is_dir_with_file, ?is_file_with_file, ?is_dir_with_dir,
    ?is_file_with_dir in *;
  repeat match goal with
         | |- context [String.eqb ?a ?b] =>
             let v := eval vm_compute in (String.eqb a b) in
             change (String.eqb a b) with v
         | H : context [String.eqb ?a ?b] |- _ =>
             let v := eval vm_compute in (String.eqb a b) in
             change (String.eqb a b) with v in H
         end;
  cbn [orb] in *.

Ltac fs_known :=
  repeat match goal with
         | H : FS.is_dir ?fs ?p = _ |- context [FS.is_dir ?fs ?p] =>
             rewrite H
         | H : FS.is_file ?fs ?p = _ |- context [FS.is_file ?fs ?p] =>
             rewrite H
         end.

Ltac fs_split :=
  match goal with
  | |- context [if FS.is_dir ?fs ?p then _ else _] =>
      let E := fresh "E" in destruct (FS.is_dir fs p) eqn:E
  | |- context [if FS.is_file ?fs ?p then _ else _] =>
      let E := fresh "E" in destruct (FS.is_file fs p) eqn:E
  end.

(** One statement of [main]: expose its tests, use what is known, split
    on what is not. *)
Ltac fs_step :=
  first [ rewrite mkdir_exist_ok_eq | rewrite write_file_eq
        | rewrite summarize_embedded ];
  fs_norm; fs_known; repeat (fs_split; fs_known); cbv beta iota.

Ltac fs_run :=
  unfold main; rewrite !and_then_eq;
  unfold with_outputs, with_charts, outputs_ready in *;
  unfold data_dir, charts_dir, memory_chart_png, comparison_matrix_png,
    deployment_png, comparison_csv, summary_txt, findings_json in *;
  repeat fs_step.



(** X21: when the charts can be written but [/workspace/data] is missing,
    the run ends at the CSV file with an [OSError]; by then the charts
    directory and the three charts are there, and so they stay: nothing
    is undone. *)
Theorem main_stops_at_csv (fs : FS.t) :
  FS.is_dir fs charts_dir = true \/
  (FS.is_file fs charts_dir = false /\ FS.is_dir fs "/workspace" = true) ->
  FS.is_dir fs memory_chart_png = false ->
  FS.is_dir fs comparison_matrix_png = false ->
  FS.is_dir fs deployment_png = false ->
  FS.is_dir fs data_dir = false ->
  main fs = (with_charts fs, Some (OSError comparison_csv)).
Proof.
  intros Hcharts Hp1 Hp2 Hp3 Hdata.
  destruct Hcharts as [Hc | [Hcf Hw]]; fs_run;
    try rewrite (with_dir_present fs "/workspace/charts") by assumption;
    try reflexivity; congruence.
Qed.

Lemma main_stops_at_csv_witness :
  main (FS.mk ["/workspace"%string] [])
  = (with_charts (FS.mk ["/workspace"%string] []),
     Some (OSError comparison_csv)).
Proof.
  apply main_stops_at_csv.
  - right. split; reflexivity.
  - reflexivity.
  - reflexivity.
  - reflexivity.
  - reflexivity.
Defined.

Lemma main_done_ready (fs : FS.t) :
  snd (main fs) = None -> outputs_ready fs.
Proof.
  fs_run; cbn [snd]; intro H; try discriminate H;
    repeat split; try assumption; try reflexivity;
    first [ left; reflexivity | right; split; reflexivity ].
Qed.

Lemma main_ready_done (fs : FS.t) :
  outputs_ready fs -> main fs = (with_outputs fs, None).
Proof.
  intros [Hcharts [Hp1 [Hp2 [Hp3 [Hdata [Hd1 [Hd2 Hd3]]]]]]].
  destruct Hcharts as [Hc | [Hcf Hw]]; fs_run;
    try rewrite (with_dir_present fs "/workspace/charts") by assumption;
    try reflexivity; congruence.
Qed.

(** X22: [main] runs to its end exactly when the charts directory exists
    or can be created under [/workspace], [/workspace/data] exists, and
    none of the six output paths is a directory; the file system then
    holds the charts directory and the six output files, and is otherwise
    as before. *)
Theorem main_completes_iff (fs : FS.t) :
  (snd (main fs) = None <-> outputs_ready fs) /\
  (outputs_ready fs -> fst (main fs) = with_outputs fs).
Proof.
  split; [split|].
  - apply main_done_ready.
  - intro Hready. rewrite (main_ready_done fs Hready). reflexivity.
  - intro Hready. rewrite (main_ready_done fs Hready). reflexivity.
Qed.

(** A file system with the two directories [main] relies on. *)
Lemma main_completes_iff_witness :
  fst (main (FS.mk ["/workspace/data"%string; "/workspace"%string] []))
  = with_outputs (FS.mk ["/workspace/data"%string; "/workspace"%string] []).
Proof.
  apply main_completes_iff.
  unfold outputs_ready. split; [right; split; reflexivity|].
  repeat split; reflexivity.
Defined.

(** X23: a run that reached its end can be repeated: the second run also
    reaches its end and leaves the file system as the first left it. *)
Theorem main_rerun (fs : FS.t) :
  snd (main fs) = None ->
  main (fst (main fs)) = (fst (main fs), None).
Proof.
  intro Hdone. apply main_done_ready in Hdone.
  rewrite (main_ready_done fs Hdone). cbn [fst].
  destruct Hdone as [Hcharts [Hp1 [Hp2 [Hp3 [Hdata [Hd1 [Hd2 Hd3]]]]]]].
  fs_run; fs_norm; fs_known; try discriminate.
  rewrite !with_file_present by (fs_norm; reflexivity).
  reflexivity.
Qed.

Lemma main_rerun_witness :
  main (fst (main (FS.mk ["/workspace/data"%string; "/workspace"%string] [])))
  = (fst (main (FS.mk ["/workspace/data"%string; "/workspace"%string] [])),
     None).
Proof.
  apply main_rerun. reflexivity.
Defined.

(** ** Further properties: improving a record *)

Lemma improves_score (r r' : ModelRecord) :
  improves r r' -> (feasibility_score r <= feasibility_score r')%Z.
Proof.
  intro H. rewrite !feasibility_score_sum.
  destruct H as [r x Hx | r Hlow | r x y Hr Hxy]; unfold spec_additive_rule.
  - pose proof (spec_size_points_antitone r x Hx) as Hs.
    unfold spec_low_resource_points, spec_sentiment_points,
      spec_context_points. simpl. lia.
  - unfold spec_size_points, spec_low_resource_points,
      spec_sentiment_points, spec_context_points. simpl. rewrite Hlow. lia.
  - pose proof (spec_sentiment_points_monotone r x y Hr Hxy) as Hs.
    unfold spec_size_points, spec_low_resource_points,
      spec_context_points. simpl. lia.
Qed.

Lemma categorize_monotone (a b : Z) :
  (a <= b)%Z ->
  (category_rank (categorize a) <= category_rank (categorize b))%nat.
Proof.
  intro Hab. unfold categorize.
  destruct (7 <=? a)%Z eqn:A7; destruct (5 <=? a)%Z eqn:A5;
    destruct (3 <=? a)%Z eqn:A3;
    destruct (7 <=? b)%Z eqn:B7; destruct (5 <=? b)%Z eqn:B5;
    destruct (3 <=? b)%Z eqn:B3; simpl; try lia;
    repeat match goal with
           | H : (_ <=? _)%Z = true |- _ => apply Z.leb_le in H
           | H : (_ <=? _)%Z = false |- _ => apply Z.leb_gt in H
           end; lia.
Qed.

(** X24: a smaller file, low-resource compatibility switched on or a
    higher present sentiment score never moves a record into a worse
    category. *)
Theorem improving_never_downgrades (r r' : ModelRecord) :
  improves r r' ->
  (category_rank (categorize (feasibility_score r))
   <= category_rank (categorize (feasibility_score r')))%nat.
Proof.
  intro H. apply categorize_monotone, improves_score. exact H.
Qed.

Lemma improving_never_downgrades_witness :
  (category_rank (categorize (feasibility_score gemma_2_2b))
   <= category_rank
        (categorize
           (feasibility_score (set_low_resource_compatible gemma_2_2b true))))%nat.
Proof.
  apply improving_never_downgrades.
  apply improves_low_resource. reflexivity.
Defined.
